(** * ipynbstore-gridfs: the GridFS contents manager

    A shallow embedding of [ipynbstore_gridfs/__init__.py]
    (class [GridFSContentsManager]) and the properties of its operations:
    [file_exists], [exists], [get], [create_checkpoint], [list_checkpoints],
    [save], [rename] and [delete].

    The manager keeps no state of its own.  Everything lives in MongoDB: the
    GridFS bucket of notebook blobs and the collection of checkpoint
    documents.  Both are modelled as lists in insertion order, and every
    method is a computation over that store which either returns a value or
    raises. *)

From Stdlib Require Import List String Ascii Arith Bool Lia PeanoNat.
From Stdlib Require Import Decimal DecimalString.
Import ListNotations.
Open Scope string_scope.
Open Scope list_scope.

Set Implicit Arguments.

(** ** Python string operations used on paths *)

Module PyStr.

Definition slash : ascii := "/"%char.

(** [s.lstrip('/')] *)
Fixpoint lstrip (s : string) : string :=
  match s with
  | String c s' => if Ascii.eqb c slash then lstrip s' else s
  | EmptyString => EmptyString
  end.

(** [s.rstrip('/')] *)
Fixpoint rstrip (s : string) : string :=
  match s with
  | EmptyString => EmptyString
  | String c s' =>
      match rstrip s' with
      | EmptyString => if Ascii.eqb c slash then EmptyString
                       else String c EmptyString
      | r => String c r
      end
  end.

(** [s.strip('/')] *)
Definition strip (s : string) : string := rstrip (lstrip s).

(** [s.endswith(suffix)] *)
Fixpoint endswith (s suffix : string) : bool :=
  String.eqb s suffix ||
  match s with
  | EmptyString => false
  | String _ s' => endswith s' suffix
  end.

(** [s.rsplit('/', 1)[-1]]: what follows the last separator. *)
Fixpoint last_segment (acc s : string) : string :=
  match s with
  | EmptyString => acc
  | String c s' =>
      if Ascii.eqb c slash then last_segment EmptyString s'
      else last_segment (acc ++ String c EmptyString) s'
  end.

Definition rsplit_last (s : string) : string := last_segment EmptyString s.

(** [str(n)] for a non-negative integer. *)
Definition str (n : nat) : string := NilZero.string_of_uint (Nat.to_uint n).

(** [x in l] on a list of strings. *)
Definition mem (x : string) (l : list string) : bool :=
  existsb (String.eqb x) l.

End PyStr.
Import PyStr.

(** ** The backing store *)

(** An [ObjectId], as the driver allots them; [str(oid)] is injective, so the
    checkpoint documents carry the same value. *)
Definition oid := nat.

(** A reading of [datetime.utcnow()], in microseconds.  A method that reads
    the clock takes the reading of its call as an argument. *)
Definition time := nat.

(** A date as a BSON document keeps it: cut to the millisecond.  What
    [create_checkpoint] returns is the reading itself, what the collection
    holds and [list_checkpoints] returns is the reading cut. *)
Definition bson_date (t : time) : time := 1000 * (t / 1000).

(** One document of the GridFS [files] collection, with its chunks joined. *)
Record grid_file : Type := GridFile {
  f_id : oid;
  f_filename : string;
  f_uploadDate : time;
  f_data : string
}.

(** One document of the checkpoint collection: the keys of [spec] in
    [create_checkpoint] and the [_id] its [$set] forces. *)
Record checkpoint : Type := Checkpoint {
  c__id : oid;
  c_path : string;
  c_cp : string;
  c_id : oid;
  c_lastModified : time
}.

Record store : Type := Store {
  files : list grid_file;
  checkpoints : list checkpoint;
  next_oid : oid
}.

Definition empty_store : store := Store [] [] 0.

(** ** Exceptions and the computation monad *)

Inductive exn : Type :=
| HTTPError (status : nat) (reason : option string)
    (** [tornado.web.HTTPError]; the log message is left out *)
| NoFile               (** [gridfs.errors.NoFile] *)
| DuplicateKeyError    (** [pymongo.errors.DuplicateKeyError] *)
| WriteError           (** a write the server refuses *)
| ValueError           (** [json.loads] on text that is not JSON *)
| AttributeError       (** a method the object does not have *)
| KeyError             (** a key the dict does not have *)
| RecursionLimit.      (** [RuntimeError]: maximum recursion depth exceeded *)

Inductive result (A : Type) : Type :=
| Ok (a : A)
| Raise (e : exn).
Arguments Raise {A} e.

(** A method call: it runs on the store, may change it, and returns or
    raises.  A raise keeps the writes made before it. *)
Definition M (A : Type) : Type := store -> result A * store.

Definition ret {A} (a : A) : M A := fun st => (Ok a, st).
Definition raise {A} (e : exn) : M A := fun st => (Raise e, st).
Definition bind {A B} (c : M A) (k : A -> M B) : M B :=
  fun st =>
    match c st with
    | (Ok a, st') => k a st'
    | (Raise e, st') => (Raise e, st')
    end.
Definition gets {A} (f : store -> A) : M A := fun st => (Ok (f st), st).
Definition modify (f : store -> store) : M unit := fun st => (Ok tt, f st).

Declare Scope py_scope.
Delimit Scope py_scope with py.
Notation "x <- c ;; k" := (bind c (fun x => k))
  (at level 100, c at next level, right associativity) : py_scope.
Notation "c ;;; k" := (bind c (fun _ => k))
  (at level 100, right associativity) : py_scope.
Open Scope py_scope.

(** [try: body except Exception as e: raise web.HTTPError(500, ...)] *)
Definition except_Exception {A} (body : M A) : M A :=
  fun st =>
    match body st with
    | (Raise _, st') => (Raise (HTTPError 500 None), st')
    | r => r
    end.

(** The same with [except web.HTTPError: raise] in front. *)
Definition except_reraise_HTTPError {A} (body : M A) : M A :=
  fun st =>
    match body st with
    | (Raise (HTTPError c r), st') => (Raise (HTTPError c r), st')
    | (Raise _, st') => (Raise (HTTPError 500 None), st')
    | r => r
    end.

(** [for x in l: out.append(f(x))] *)
Fixpoint mapM {A B} (f : A -> M B) (l : list A) : M (list B) :=
  match l with
  | [] => ret []
  | x :: l' => y <- f x ;; ys <- mapM f l' ;; ret (y :: ys)
  end.

(** ** GridFS *)

Module GridFS.

Definition named (name : string) (f : grid_file) : bool :=
  String.eqb (f_filename f) name.

(** The values of one key, each once, in the order they first occur. *)
Fixpoint distinct (l : list string) : list string :=
  match l with
  | [] => []
  | x :: l' => x :: filter (fun y => negb (String.eqb y x)) (distinct l')
  end.

(** The first document of a cursor sorted by [uploadDate] descending:
    the greatest upload date wins, and of two equal ones the later
    insertion. *)
Fixpoint newest (best : option grid_file) (l : list grid_file)
  : option grid_file :=
  match l with
  | [] => best
  | f :: l' =>
      newest (match best with
              | None => Some f
              | Some b => if (f_uploadDate b <=? f_uploadDate f)%nat
                          then Some f else Some b
              end) l'
  end.

Definition last_version (name : string) (st : store) : option grid_file :=
  newest None (filter (named name) (files st)).

(** [fs.get_version(filename)] (version -1) and [fs.get_last_version]. *)
Definition get_version (name : string) : M grid_file :=
  fun st =>
    match last_version name st with
    | Some f => (Ok f, st)
    | None => (Raise NoFile, st)
    end.

(** [fs.get(file_id)] *)
Definition get (i : oid) : M grid_file :=
  fun st =>
    match find (fun f => (f_id f =? i)%nat) (files st) with
    | Some f => (Ok f, st)
    | None => (Raise NoFile, st)
    end.

(** [fs.put(data, filename=name)]: a new file under a fresh [ObjectId],
    dated by the clock.  The manager never reads [uploadDate]; the date
    only orders the versions of a name, in [newest], and is kept as it was
    read: for a clock that does not run backwards, cutting it to the
    millisecond changes nothing to that order, two dates of one millisecond
    being equal dates, which fall to the later insertion. *)
Definition put (data name : string) (now : time) : M oid :=
  fun st =>
    (Ok (next_oid st),
     Store (files st ++ [GridFile (next_oid st) name now data])
           (checkpoints st) (S (next_oid st))).

(** [fs.delete(file_id)]: removes that one file. *)
Definition delete (i : oid) : M unit :=
  modify (fun st =>
    Store (filter (fun f => negb (f_id f =? i)%nat) (files st))
          (checkpoints st) (next_oid st)).

(** [fs.list()]: the distinct filenames. *)
Definition list : M (Datatypes.list string) :=
  gets (fun st => distinct (map f_filename (files st))).

End GridFS.

(** ** The checkpoint collection *)

Module Collection.

Definition at_path (path : string) (c : checkpoint) : bool :=
  String.eqb (c_path c) path.

(** [find({'path': path})] *)
Definition find (path : string) : M (list checkpoint) :=
  gets (fun st => filter (at_path path) (checkpoints st)).

(** [find({'path': path}).count()] *)
Definition count (path : string) : M nat :=
  gets (fun st => List.length (filter (at_path path) (checkpoints st))).

(** The query [spec] of [create_checkpoint]: equality on its four keys. *)
Definition matches (path cp : string) (i : oid) (t : time) (c : checkpoint)
  : bool :=
  String.eqb (c_path c) path && String.eqb (c_cp c) cp &&
  (c_id c =? i)%nat && (c_lastModified c =? t)%nat.

(** [update(spec, {'$set': {'_id': chid}}, upsert=True)].
    The driver encodes [spec] as BSON, which cuts its date to the
    millisecond, for the query and for the document alike.
    A document that matches [spec] gets its [_id] set, which the server
    accepts only when that changes nothing.  With no match the document
    made of [spec] and the [$set] is inserted; [_id] is the collection's
    unique key, so a document that already carries it makes the insert
    fail. *)
Definition upsert (path cp : string) (i : oid) (t : time) (chid : oid)
  : M unit :=
  fun st =>
    match List.find (matches path cp i (bson_date t)) (checkpoints st) with
    | Some c =>
        if (c__id c =? chid)%nat then (Ok tt, st) else (Raise WriteError, st)
    | None =>
        if existsb (fun c => (c__id c =? chid)%nat) (checkpoints st)
        then (Raise DuplicateKeyError, st)
        else (Ok tt,
              Store (files st)
                    (checkpoints st ++
                     [Checkpoint chid path cp i (bson_date t)])
                    (next_oid st))
    end.

(** [update({'path': old}, {'$set': {'path': new}}, multi=True)] *)
Definition retarget (old new : string) : M unit :=
  modify (fun st =>
    Store (files st)
          (map (fun c => if at_path old c
                         then Checkpoint (c__id c) new (c_cp c) (c_id c)
                                         (c_lastModified c)
                         else c) (checkpoints st))
          (next_oid st)).

End Collection.

(** ** Models *)

(** The dict handed to [save]; [None] is a key that is not there. *)
Record in_model (D : Type) : Type := InModel {
  m_type : option string;
  m_content : option D;
  m_format : option string;
  m_message : option string
}.
Arguments InModel {D}.

(** The dict [get] returns.  Its content is a notebook document or, for the
    root, the list of the models of the stored files. *)
Module Model.

#[local] Set Warnings "-register-all".

Inductive t (D : Type) : Type := Make {
  name : string;
  path : string;
  last_modified : time;
  created : time;
  content : option (D + list (t D));
  format : option string;
  mimetype : option string;
  writable : bool;
  type : option string;
  message : option string
}.
Arguments Make {D}.

Definition set_type {D} (ty : string) (m : t D) : t D :=
  Make (name m) (path m) (last_modified m) (created m) (content m)
       (format m) (mimetype m) (writable m) (Some ty) (message m).

Definition set_content {D} (c : D + list (t D)) (m : t D) : t D :=
  Make (name m) (path m) (last_modified m) (created m) (Some c)
       (format m) (mimetype m) (writable m) (type m) (message m).

Definition set_format {D} (f : string) (m : t D) : t D :=
  Make (name m) (path m) (last_modified m) (created m) (content m)
       (Some f) (mimetype m) (writable m) (type m) (message m).

Definition set_message {D} (msg : string) (m : t D) : t D :=
  Make (name m) (path m) (last_modified m) (created m) (content m)
       (format m) (mimetype m) (writable m) (type m) (Some msg).

(** The entries of a directory model. *)
Definition entries {D} (m : t D) : list (t D) :=
  match content m with
  | Some (inr l) => l
  | _ => []
  end.

End Model.

(** What [create_checkpoint] returns and [list_checkpoints] lists. *)
Module Info.
Record t : Type := Make { id : string; last_modified : time }.
End Info.

(** ** The host: IPython's [ContentsManager], [nbformat] and [json]

    The class inherits from IPython's [ContentsManager] and calls into
    [nbformat] and [json].  None of that code belongs to the repository, so
    the manager is stated over an interface of what it calls. *)
Class Host : Type := {
  (** a decoded JSON value: a notebook is one, a file's text is one *)
  document : Type;
  (** [json.dumps(nb, sort_keys=b)] *)
  json_dumps : bool -> document -> string;
  (** [json.loads(s)]; [None] when it raises *)
  json_loads : string -> option document;
  (** [nbformat.read(f, as_version=4)] on the bytes of [f]; [None] when it
      raises *)
  nbformat_read : string -> option document;
  (** [self.check_and_sign(nb, path)], which may write into [nb] *)
  check_and_sign : document -> string -> document;
  (** [self.mark_trusted_cells(nb, path)], which may write into [nb] *)
  mark_trusted_cells : document -> string -> document;
  (** [nbformat.validate] inside [validate_notebook_model]: the message of
      the failure, if any *)
  validate : document -> option string;
  (** [self._save_file] and [self._save_directory]: the class defines
      neither, so they are whatever the base class makes of them *)
  _save_file : string -> document -> option string -> M unit;
  _save_directory : string -> in_model document -> string -> M unit
}.

(** ** The contents manager *)

Section Manager.

Context {H : Host}.

Local Abbreviation model := (Model.t document).

(** [nbformat.from_dict]: it wraps the dicts of the value in
    [NotebookNode], a dict subclass, and keeps every key and value. *)
Definition from_dict (d : document) : document := d.

Definition file_exists (path : string) : M bool :=
  let path := strip path in
  file_collection <- GridFS.list ;;
  if String.eqb path "" then ret false
  else if mem path file_collection then ret true
  else ret false.

Definition dir_exists (path : string) : bool :=
  if String.eqb path "" then true else false.

Definition exists_ (path : string) : M bool :=
  let path := strip path in
  b <- file_exists path ;;
  ret (b || dir_exists path).

Definition is_hidden (path : string) : bool := false.

Definition _base_model (path : string) (now : time) : model :=
  Model.Make (rsplit_last path) path now now None None None true None None.

(** [validate_notebook_model] of the base class: it adds the message of a
    failed validation to the model and never raises. *)
Definition validate_notebook_model (m : model) : model :=
  match Model.content m with
  | Some (inl nb) =>
      match validate nb with
      | Some msg => Model.set_message msg m
      | None => m
      end
  | _ => m
  end.

Definition _read_notebook (path : string) : M document :=
  f <- GridFS.get_version path ;;
  filename <- (fun st =>
                 match GridFS.get (f_id f) st with
                 | (Raise _, st') => (Raise (HTTPError 400 None), st')
                 | r => r
                 end) ;;
  match nbformat_read (f_data filename) with
  | Some nb => ret nb
  | None => raise (HTTPError 400 None)
  end.

Definition _notebook_model (path : string) (content : bool) (now : time)
  : M model :=
  let m := Model.set_type "notebook" (_base_model path now) in
  if content then
    nb <- _read_notebook path ;;
    let nb := mark_trusted_cells nb path in
    ret (validate_notebook_model
           (Model.set_format "json" (Model.set_content (inl nb) m)))
  else ret m.

(** [_dir_model], with the [self.get] it calls for every name. *)
Definition _dir_model
    (get : string -> bool -> option string -> option string -> time -> M model)
    (path : string) (content : bool) (now : time) : M model :=
  let m := Model.set_type "directory" (_base_model path now) in
  file_collection <- GridFS.list ;;
  contents <- mapM (fun name => get name content None None now)
                   file_collection ;;
  ret (Model.set_format "json" (Model.set_content (inr contents) m)).

Definition is_type (ty : option string) (s : string) : bool :=
  match ty with
  | Some s' => String.eqb s' s
  | None => false
  end.

Definition is_None {A} (o : option A) : bool :=
  match o with None => true | Some _ => false end.

(** [get] calls [_dir_model], which calls [get] again for every stored
    name; [depth] is the number of nested calls the interpreter allows. *)
Fixpoint get_rec (depth : nat) (path : string) (content : bool)
    (type format : option string) (now : time) : M model :=
  match depth with
  | O => raise RecursionLimit
  | S depth' =>
      let path := strip path in
      b <- exists_ path ;;
      if negb b then raise (HTTPError 404 None)
      else if String.eqb path "" then
        if negb (is_None type || is_type type "directory")
        then raise (HTTPError 400 (Some "bad type"))
        else _dir_model (get_rec depth') path content now
      else if is_type type "notebook" ||
              (is_None type && endswith path ".ipynb")
      then _notebook_model path content now
      else raise (HTTPError 400 (Some "bad type"))
  end.

(** [sys.getrecursionlimit()] is 1000 frames, two for each nested [get]. *)
Definition recursion_limit : nat := 500.

Definition get (path : string) (content : bool)
    (type format : option string) (now : time) : M model :=
  get_rec recursion_limit path content type format now.

Definition create_checkpoint (path : string) (now : time) : M Info.t :=
  let path := strip path in
  notebook <- GridFS.get_version path ;;
  let chid := f_id notebook in
  n <- Collection.count path ;;
  let cp_id := str n in
  let last_modified := now in
  Collection.upsert path cp_id chid last_modified chid ;;;
  ret (Info.Make cp_id last_modified).

Definition list_checkpoints (path : string) : M (list Info.t) :=
  let path := strip path in
  cps <- Collection.find path ;;
  ret (map (fun c => Info.Make (c_cp c) (c_lastModified c)) cps).

Definition _save_notebook (os_path : string) (nb : document) (now : time)
  : M unit :=
  GridFS.put (json_dumps true nb) os_path now ;;; ret tt.

Definition is_nil {A} (l : list A) : bool :=
  match l with [] => true | _ => false end.

(** [save].  The pre-save hook of the base class is not configured, and
    logging is left out. *)
Definition save (m : in_model document) (path : string) (now : time)
  : M model :=
  let path := strip path in
  match m_type m with
  | None => raise (HTTPError 400 None)
  | Some ty =>
      if is_None (m_content m) && negb (String.eqb ty "directory")
      then raise (HTTPError 400 None)
      else
        fe <- file_exists path ;;
        (if fe
         then cps <- list_checkpoints path ;;
              if is_nil cps
              then create_checkpoint path now ;;; ret tt
              else ret tt
         else ret tt) ;;;
        except_reraise_HTTPError
          (if String.eqb ty "notebook" then
             match m_content m with
             | Some c =>
                 let nb := check_and_sign (from_dict c) path in
                 _save_notebook path nb now
             | None => raise KeyError
             end
           else if String.eqb ty "file" then
             match m_content m with
             | Some c => _save_file path c (m_format m)
             | None => raise KeyError
             end
           else if String.eqb ty "directory" then
             _save_directory path m path
           else raise (HTTPError 400 None)) ;;;
        let validation_message :=
          if String.eqb ty "notebook" then
            match m_content m with
            | Some c =>
                match validate c with
                | Some msg => Some msg
                | None => m_message m
                end
            | None => m_message m
            end
          else None in
        r <- get path false None None now ;;
        match validation_message with
        | Some msg =>
            if String.eqb msg "" then ret r
            else ret (Model.set_message msg r)
        | None => ret r
        end
  end.

Definition delete (path : string) : M unit :=
  fe <- file_exists path ;;
  if negb fe then ret tt
  else
    let path := strip path in
    gridfile <- GridFS.get_version path ;;
    GridFS.delete (f_id gridfile).

Definition rename (old_path new_path : string) (now : time) : M unit :=
  let old_path := strip old_path in
  let new_path := strip new_path in
  if String.eqb new_path old_path then ret tt
  else
    fe <- file_exists new_path ;;
    if fe then raise (HTTPError 409 None)
    else
      except_Exception
        (version <- GridFS.get_version old_path ;;
         grid_file <- GridFS.get (f_id version) ;;
         match json_loads (f_data grid_file) with
         | None => raise ValueError
         | Some d =>
             let nb := from_dict d in
             GridFS.put (json_dumps false nb) new_path now ;;;
             delete old_path
         end) ;;;
      Collection.retarget old_path new_path.

End Manager.

(** ** A host to run the manager on

    The base class as IPython 3 ships it has no [_save_file] and no
    [_save_directory], so looking them up raises.  Documents are kept as
    their JSON text, which makes the codec and the trust hooks the
    identity. *)
Definition ipython_host : Host := {|
  document := string;
  json_dumps := fun _ d => d;
  json_loads := fun s => Some s;
  nbformat_read := fun s => Some s;
  check_and_sign := fun d _ => d;
  mark_trusted_cells := fun d _ => d;
  validate := fun _ => None;
  _save_file := fun _ _ _ => raise AttributeError;
  _save_directory := fun _ _ _ => raise AttributeError
|}.

(** [{'type': 'notebook', 'content': d}] *)
Definition notebook_model {H : Host} (d : document) : in_model document :=
  InModel (Some "notebook") (Some d) None None.

(** [{'type': 'file', 'format': fmt, 'content': d}] *)
Definition file_model {H : Host} (d : document) (fmt : string)
  : in_model document :=
  InModel (Some "file") (Some d) (Some fmt) None.

(** * Notions the properties are stated with *)

(** ** Read off the store *)

(** A string that does not begin with the separator. *)
Definition no_lead (s : string) : Prop :=
  match s with
  | String c _ => Ascii.eqb c slash = false
  | EmptyString => True
  end.

(** A call that leaves the store as it found it. *)
Definition readonly {A} (c : M A) : Prop := forall st, snd (c st) = st.

(** A file of that name is stored. *)
Definition stored (name : string) (st : store) : bool :=
  mem name (map f_filename (files st)).

(** The answer of [file_exists], read off the store. *)
Definition file_existsb (path : string) (st : store) : bool :=
  negb (String.eqb (strip path) "") && stored (strip path) st.

(** The number [find({'path': path}).count()] gives. *)
Definition checkpoint_count (path : string) (st : store) : nat :=
  List.length (filter (Collection.at_path (strip path)) (checkpoints st)).

(** Every checkpoint document is keyed by the blob identifier it records,
    as [create_checkpoint] writes them. *)
Definition keyed (st : store) : bool :=
  forallb (fun c => (c__id c =? c_id c)%nat) (checkpoints st).



(** The store with one more version under [name]. *)
Definition with_version (st : store) (name data : string) (now : time)
  : store :=
  Store (files st ++ [GridFile (next_oid st) name now data])
        (checkpoints st) (S (next_oid st)).

(** Every [ObjectId] in the bucket was allotted before the next one. *)
Definition fresh_ids (st : store) : bool :=
  forallb (fun f => (f_id f <? next_oid st)%nat) (files st).

(** The versions stored under [name] were uploaded before [now]. *)
Definition older (name : string) (now : time) (st : store) : bool :=
  forallb (fun f => negb (GridFS.named name f) || (f_uploadDate f <? now)%nat)
          (files st).

(** The bucket without the file of that [ObjectId]. *)
Definition without (i : oid) (st : store) : store :=
  Store (filter (fun f => negb (f_id f =? i)%nat) (files st))
        (checkpoints st) (next_oid st).

(** The checkpoint collection with the documents of [old] moved to [new]. *)
Definition retargeted (old new : string) (st : store) : store :=
  Store (files st)
        (map (fun c => if Collection.at_path old c
                       then Checkpoint (c__id c) new (c_cp c) (c_id c)
                                       (c_lastModified c)
                       else c) (checkpoints st))
        (next_oid st).

(** ** Relative to the host *)

Section Notions.

Context {H : Host}.

(** The text [save] writes for a notebook document. *)
Definition stored_text (d : document) (path : string) : string :=
  json_dumps true (check_and_sign (from_dict d) path).

(** The host returns [d] from the text [save] writes for it: the codec
    reads back what it wrote and the trust hooks leave the document as it
    is. *)
Definition reads_back (d : document) (path : string) : Prop :=
  option_map (fun nb => mark_trusted_cells nb path)
             (nbformat_read (stored_text d path))
  = Some d.

(** [nbformat.read] accepts the text [save] writes for [d]. *)
Definition readable (d : document) (path : string) : bool :=
  negb (is_None (nbformat_read (stored_text d path))).

End Notions.

(** ** Stores to run on *)

(** A notebook document of [ipython_host]. *)
Definition empty_notebook : string := "{cells: [], metadata: {}, nbformat: 4}".

(** The store after one save of a notebook at [a.ipynb]. *)
Definition saved_once : store :=
  snd (save (H := ipython_host)
            (notebook_model (H := ipython_host) empty_notebook)
            "a.ipynb" 1 empty_store).

(** The store after a second save at the same path. *)
Definition saved_twice : store :=
  snd (save (H := ipython_host)
            (notebook_model (H := ipython_host) empty_notebook)
            "a.ipynb" 2 saved_once).

(** The store [rename("a.ipynb", "")] leaves of [saved_once]. *)
Definition renamed_onto_root : store :=
  snd (rename (H := ipython_host) "a.ipynb" "" 9 saved_once).

(** ** Histories *)

(** Every file of [st'] was in [st] or carries [name]. *)
Definition adds_only (name : string) (st st' : store) : Prop :=
  forall f, In f (files st') -> In f (files st) \/ f_filename f = name.

Section Histories.

Context {H : Host}.

(** A call that writes: a save of a notebook model, a rename, a delete or
    a checkpoint. *)
Inductive request : Type :=
| Save (d : document) (path : string) (now : time)
| Rename (old_path new_path : string) (now : time)
| Delete (path : string)
| CreateCheckpoint (path : string) (now : time).

(** The store the call leaves, whether it returns or raises. *)
Definition after (r : request) (st : store) : store :=
  match r with
  | Save d path now => snd (save (notebook_model d) path now st)
  | Rename old_path new_path now => snd (rename old_path new_path now st)
  | Delete path => snd (delete path st)
  | CreateCheckpoint path now => snd (create_checkpoint path now st)
  end.

Fixpoint run (rs : list request) (st : store) : store :=
  match rs with
  | [] => st
  | r :: rs' => run rs' (after r st)
  end.

(** The call saves at [name] or renames onto it. *)
Definition saves_at (name : string) (r : request) : bool :=
  match r with
  | Save _ path _ => String.eqb (strip path) name
  | Rename _ new_path _ => String.eqb (strip new_path) name
  | _ => false
  end.

End Histories.

(** ** More hosts and notions *)

(** A host whose codec refuses the empty text: [json.loads] and
    [nbformat.read] raise on it and return any other text as it is. *)
Definition picky_host : Host := {|
  document := string;
  json_dumps := fun _ d => d;
  json_loads := fun s => if String.eqb s "" then None else Some s;
  nbformat_read := fun s => if String.eqb s "" then None else Some s;
  check_and_sign := fun d _ => d;
  mark_trusted_cells := fun d _ => d;
  validate := fun _ => None;
  _save_file := fun _ _ _ => raise AttributeError;
  _save_directory := fun _ _ _ => raise AttributeError
|}.

(** A host whose [mark_trusted_cells] writes into the notebook, as
    IPython's does when it sets [metadata.trusted] on the code cells: the
    document it leaves is the one read with a mark after it.  The codec is
    the identity. *)
Definition trusting_host : Host := {|
  document := string;
  json_dumps := fun _ d => d;
  json_loads := fun s => Some s;
  nbformat_read := fun s => Some s;
  check_and_sign := fun d _ => d;
  mark_trusted_cells := fun d _ => String.append d " (trusted)";
  validate := fun _ => None;
  _save_file := fun _ _ _ => raise AttributeError;
  _save_directory := fun _ _ _ => raise AttributeError
|}.

(** Every stored name is a notebook's: stripped, not the root, ending in
    [.ipynb]. *)
Definition notebook_names (st : store) : bool :=
  forallb (fun n => String.eqb (strip n) n && negb (String.eqb n "") &&
                    endswith n ".ipynb")
          (map f_filename (files st)).

(** The bucket of [st'] comes from that of [st] by writes of new versions
    under [name] and removals. *)
Inductive grows (name : string) : store -> store -> Prop :=
| grows_same (st st' : store) :
    files st' = files st -> next_oid st' = next_oid st ->
    grows name st st'
| grows_put (st st1 : store) (data : string) (now : time) :
    grows name st st1 ->
    grows name st (with_version st1 name data now)
| grows_del (st st1 : store) (i : oid) :
    grows name st st1 ->
    grows name st (without i st1)
| grows_files (st st1 st' : store) :
    grows name st st1 ->
    files st' = files st1 -> next_oid st' = next_oid st1 ->
    grows name st st'.

(** The identifiers of the bucket: all allotted, none twice. *)
Definition ids_ok (st : store) : Prop :=
  fresh_ids st = true /\ NoDup (map f_id (files st)).

(** The stored names are stripped. *)
Definition names_stripped (st : store) : Prop :=
  forall f, In f (files st) -> strip (f_filename f) = f_filename f.

(** What one call can do to the collection: nothing, add one document
    keyed by the blob it records, under a key no document bears, with its
    date cut to the millisecond, or move the documents of a path. *)
Definition collection_step (l l' : list checkpoint) : Prop :=
  l' = l \/
  (exists i path cp t,
     existsb (fun c => (c__id c =? i)%nat) l = false /\
     l' = l ++ [Checkpoint i path cp i (bson_date t)]) \/
  (exists old new,
     l' = map (fun c => if Collection.at_path old c
                        then Checkpoint (c__id c) new (c_cp c) (c_id c)
                                        (c_lastModified c)
                        else c) l).

(** What such a step keeps: every document is keyed by the blob it
    records, no two bear the same [_id], and every date is cut to the
    millisecond. *)
Definition collection_ok (l : list checkpoint) : Prop :=
  forallb (fun c => (c__id c =? c_id c)%nat) l = true /\
  NoDup (map c__id l) /\
  (forall c, In c l -> bson_date (c_lastModified c) = c_lastModified c).

(** Two histories on [ipython_host]. *)
Definition moved_and_cleaned : list (@request ipython_host) :=
  [@Save ipython_host empty_notebook "a.ipynb" 1;
   @Rename ipython_host "a.ipynb" "/b.ipynb" 2;
   @Save ipython_host empty_notebook "notes" 3;
   @Delete ipython_host "notes"].

Definition saved_and_moved : list (@request ipython_host) :=
  [@Save ipython_host empty_notebook "a.ipynb" 1;
   @Rename ipython_host "a.ipynb" "b.ipynb" 2].

(** [b.ipynb] is saved twice and deleted twice, which leaves its
    checkpoint document behind; [a.ipynb] is then saved twice. *)
Definition two_histories : store :=
  run [@Save ipython_host empty_notebook "b.ipynb" 1000;
       @Save ipython_host empty_notebook "b.ipynb" 2000;
       @Delete ipython_host "b.ipynb";
       @Delete ipython_host "b.ipynb";
       @Save ipython_host empty_notebook "a.ipynb" 3000;
       @Save ipython_host empty_notebook "a.ipynb" 4000]
      empty_store.

(** * Properties *)

(** ** Paths *)

Module PathFacts.

Lemma lstrip_no_lead (s : string) : no_lead (lstrip s).
Proof.
  induction s as [|c s IH]; simpl; [exact I|].
  destruct (Ascii.eqb c slash) eqn:E; [exact IH | simpl; exact E].
Qed.

Lemma lstrip_fixed (s : string) : no_lead s -> lstrip s = s.
Proof.
  destruct s as [|c s]; simpl; intros E; [reflexivity | now rewrite E].
Qed.

Lemma rstrip_no_lead (s : string) : no_lead s -> no_lead (rstrip s).
Proof.
  destruct s as [|c s]; simpl; intros E; [exact I|].
  destruct (rstrip s); simpl; [rewrite E; simpl|]; exact E.
Qed.

Lemma rstrip_idem (s : string) : rstrip (rstrip s) = rstrip s.
Proof.
  induction s as [|c s IH]; simpl; [reflexivity|].
  destruct (rstrip s) as [|c' r] eqn:E.
  - destruct (Ascii.eqb c slash) eqn:Ec; simpl; [reflexivity | now rewrite Ec].
  - change (rstrip (String c (String c' r)) = String c (String c' r)).
    cbn [rstrip]. cbn [rstrip] in IH. rewrite IH. reflexivity.
Qed.

Lemma strip_idem (s : string) : strip (strip s) = strip s.
Proof.
  unfold strip.
  rewrite lstrip_fixed by (apply rstrip_no_lead, lstrip_no_lead).
  apply rstrip_idem.
Qed.

End PathFacts.
Import PathFacts.

(** ** Computations that only read *)

Lemma readonly_ret {A} (a : A) : readonly (ret a).
Proof. intros st; reflexivity. Qed.

Lemma readonly_raise {A} (e : exn) : readonly (@raise A e).
Proof. intros st; reflexivity. Qed.

Lemma readonly_gets {A} (f : store -> A) : readonly (gets f).
Proof. intros st; reflexivity. Qed.

Lemma readonly_bind {A B} (c : M A) (k : A -> M B) :
  readonly c -> (forall a, readonly (k a)) -> readonly (bind c k).
Proof.
  intros Hc Hk st. unfold bind. specialize (Hc st).
  destruct (c st) as [[a|e] st1]; simpl in *; subst; [apply Hk | reflexivity].
Qed.

Lemma readonly_mapM {A B} (f : A -> M B) (l : list A) :
  (forall x, readonly (f x)) -> readonly (mapM f l).
Proof.
  intros Hf. induction l as [|x l IH]; simpl; [apply readonly_ret|].
  apply readonly_bind; [apply Hf|]. intros y.
  apply readonly_bind; [exact IH|]. intros ys. apply readonly_ret.
Qed.

Lemma readonly_run {A} (c : M A) st r st' :
  readonly c -> c st = (r, st') -> st' = st.
Proof. intros Hc E. specialize (Hc st). rewrite E in Hc. exact Hc. Qed.

(** What a successful [bind] went through. *)
Lemma bind_Ok {A B} (c : M A) (k : A -> M B) st b st' :
  bind c k st = (Ok b, st') ->
  exists a st1, c st = (Ok a, st1) /\ k a st1 = (Ok b, st').
Proof.
  unfold bind. destruct (c st) as [[a|e] st1]; intros E; [|discriminate].
  exists a, st1. split; [reflexivity | exact E].
Qed.

(** A loop over the store's names raises when the call for one of them
    does. *)
Lemma mapM_raises {A B} (f : A -> M B) (l : list A) (x : A) (st : store) :
  (forall y, readonly (f y)) ->
  In x l ->
  (exists e, f x st = (Raise e, st)) ->
  exists e, mapM f l st = (Raise e, st).
Proof.
  intros Hro Hin Hx. induction l as [|y l IH]; [destruct Hin|].
  simpl. unfold bind at 1.
  destruct (f y st) as [[b|e] st1] eqn:E.
  - assert (st1 = st) by (eapply readonly_run; eauto). subst st1.
    destruct Hin as [->|Hin].
    + destruct Hx as [e' E']. congruence.
    + destruct (IH Hin) as [e' E']. unfold bind. rewrite E'. eauto.
  - assert (st1 = st) by (eapply readonly_run; eauto). subst st1. eauto.
Qed.

(** ** The blob store *)

Module GridFacts.

Lemma mem_In (x : string) (l : list string) : mem x l = true <-> In x l.
Proof.
  unfold mem. rewrite existsb_exists. split.
  - intros [y [Hy E]]. apply String.eqb_eq in E. now subst.
  - intros Hin. exists x. split; [exact Hin | apply String.eqb_refl].
Qed.

Lemma mem_filter_neq (x a : string) (l : list string) :
  mem x (filter (fun y => negb (String.eqb y a)) l)
  = negb (String.eqb x a) && mem x l.
Proof.
  induction l as [|y l IH]; simpl; [now rewrite andb_false_r|].
  destruct (String.eqb_spec y a) as [->|Hya]; simpl.
  - rewrite IH. destruct (String.eqb_spec x a); simpl; reflexivity.
  - rewrite IH. destruct (String.eqb_spec x y) as [->|Hxy]; simpl.
    + destruct (String.eqb_spec y a); [contradiction | reflexivity].
    + reflexivity.
Qed.

Lemma mem_distinct (x : string) (l : list string) :
  mem x (GridFS.distinct l) = mem x l.
Proof.
  induction l as [|a l IH]; [reflexivity|].
  pose proof (mem_filter_neq x a (GridFS.distinct l)) as F.
  unfold mem in *. cbn [GridFS.distinct existsb]. rewrite F, IH.
  destruct (String.eqb x a); reflexivity.
Qed.

Lemma stored_filter (name : string) (st : store) :
  stored name st = negb (is_nil (filter (GridFS.named name) (files st))).
Proof.
  unfold stored. induction (files st) as [|f l IH]; [reflexivity|].
  simpl. unfold GridFS.named at 1. rewrite IH.
  rewrite (String.eqb_sym name (f_filename f)).
  destruct (String.eqb (f_filename f) name); reflexivity.
Qed.

Lemma newest_Some (b : grid_file) (l : list grid_file) :
  exists f, GridFS.newest (Some b) l = Some f.
Proof.
  revert b. induction l as [|g l IH]; intros b; simpl; [eauto|].
  destruct (f_uploadDate b <=? f_uploadDate g)%nat; apply IH.
Qed.

(** [get_version] finds a file exactly when one of that name is stored. *)
Lemma last_version_stored (name : string) (st : store) :
  stored name st = true <-> exists f, GridFS.last_version name st = Some f.
Proof.
  rewrite stored_filter. unfold GridFS.last_version.
  destruct (filter (GridFS.named name) (files st)) as [|g l]; simpl.
  - split; [discriminate | intros [f E]; discriminate].
  - split; [intros _; apply newest_Some | reflexivity].
Qed.

Lemma last_version_None (name : string) (st : store) :
  stored name st = false <-> GridFS.last_version name st = None.
Proof.
  split; intros E.
  - destruct (GridFS.last_version name st) as [f|] eqn:L; [|reflexivity].
    assert (stored name st = true) by (apply last_version_stored; eauto).
    congruence.
  - destruct (stored name st) eqn:S; [|reflexivity].
    apply last_version_stored in S. destruct S as [f L]. congruence.
Qed.

(** The version found carries the name asked for and is in the store. *)
Lemma newest_In (b : option grid_file) (l : list grid_file) (f : grid_file) :
  GridFS.newest b l = Some f -> b = Some f \/ In f l.
Proof.
  revert b. induction l as [|g l IH]; intros b E; simpl in E; [now left|].
  apply IH in E. destruct E as [E|E]; [|right; now right].
  destruct b as [b|].
  - destruct (f_uploadDate b <=? f_uploadDate g)%nat;
      inversion E; subst; [right; now left | now left].
  - inversion E; subst. right; now left.
Qed.

Lemma last_version_In (name : string) (st : store) (f : grid_file) :
  GridFS.last_version name st = Some f ->
  In f (files st) /\ f_filename f = name.
Proof.
  unfold GridFS.last_version. intros E. apply newest_In in E.
  destruct E as [E|E]; [discriminate|].
  apply filter_In in E. destruct E as [Hin Hn].
  split; [exact Hin | now apply String.eqb_eq].
Qed.

End GridFacts.
Import GridFacts.

(** ** The manager's queries *)

Section ManagerFacts.

Context {H : Host}.

Lemma file_exists_eq (path : string) (st : store) :
  file_exists path st = (Ok (file_existsb path st), st).
Proof.
  unfold file_exists, file_existsb, stored, bind, GridFS.list, gets, ret.
  rewrite mem_distinct.
  destruct (String.eqb (strip path) ""); simpl; [reflexivity|].
  destruct (mem (strip path) (map f_filename (files st))); reflexivity.
Qed.

Lemma file_existsb_strip (path : string) (st : store) :
  file_existsb (strip path) st = file_existsb path st.
Proof. unfold file_existsb. now rewrite strip_idem. Qed.

Lemma exists_eq (path : string) (st : store) :
  exists_ path st
  = (Ok (file_existsb path st || String.eqb (strip path) ""), st).
Proof.
  unfold exists_, bind. rewrite file_exists_eq, file_existsb_strip.
  unfold ret, dir_exists.
  destruct (String.eqb (strip path) ""); reflexivity.
Qed.

Lemma list_checkpoints_eq (path : string) (st : store) :
  list_checkpoints path st
  = (Ok (map (fun c => Info.Make (c_cp c) (c_lastModified c))
             (filter (Collection.at_path (strip path)) (checkpoints st))),
     st).
Proof. reflexivity. Qed.

Lemma readonly_file_exists (path : string) : readonly (file_exists path).
Proof. intros st. now rewrite file_exists_eq. Qed.

Lemma readonly_exists (path : string) : readonly (exists_ path).
Proof. intros st. now rewrite exists_eq. Qed.

Lemma readonly_get_version (name : string) :
  readonly (GridFS.get_version name).
Proof.
  intros st. unfold GridFS.get_version.
  destruct (GridFS.last_version name st); reflexivity.
Qed.

Lemma readonly_fs_get (i : oid) : readonly (GridFS.get i).
Proof.
  intros st. unfold GridFS.get.
  destruct (find _ (files st)); reflexivity.
Qed.

Lemma readonly_read_notebook (path : string) :
  readonly (_read_notebook path).
Proof.
  unfold _read_notebook.
  apply readonly_bind; [apply readonly_get_version|]. intros f.
  apply readonly_bind.
  - intros st. pose proof (readonly_fs_get (f_id f) st) as E.
    destruct (GridFS.get (f_id f) st) as [[g|e] st1]; exact E.
  - intros g. destruct (nbformat_read (f_data g));
      [apply readonly_ret | apply readonly_raise].
Qed.

Lemma readonly_notebook_model (path : string) (content : bool) (now : time) :
  readonly (_notebook_model path content now).
Proof.
  unfold _notebook_model. destruct content; [|apply readonly_ret].
  apply readonly_bind; [apply readonly_read_notebook|].
  intros nb. apply readonly_ret.
Qed.

Lemma get_rec_S (depth : nat) (path : string) (content : bool)
    (type format : option string) (now : time) :
  get_rec (S depth) path content type format now
  = (b <- exists_ (strip path) ;;
     if negb b then raise (HTTPError 404 None)
     else if String.eqb (strip path) "" then
       if negb (is_None type || is_type type "directory")
       then raise (HTTPError 400 (Some "bad type"))
       else _dir_model (get_rec depth) (strip path) content now
     else if is_type type "notebook" ||
             (is_None type && endswith (strip path) ".ipynb")
     then _notebook_model (strip path) content now
     else raise (HTTPError 400 (Some "bad type"))).
Proof. reflexivity. Qed.

(** [get] writes nothing, however deep the listing goes. *)
Lemma readonly_get_rec (depth : nat) :
  forall path content type format now,
    readonly (get_rec depth path content type format now).
Proof.
  induction depth as [|d IH]; intros path content type format now.
  - apply readonly_raise.
  - rewrite get_rec_S.
    apply readonly_bind; [apply readonly_exists|]. intros b.
    destruct (negb b); [apply readonly_raise|].
    destruct (String.eqb (strip path) "").
    + destruct (negb _); [apply readonly_raise|].
      unfold _dir_model.
      apply readonly_bind; [apply readonly_gets|]. intros names.
      apply readonly_bind; [|intros; apply readonly_ret].
      apply readonly_mapM. intros name. apply IH.
    + destruct (_ || _);
        [apply readonly_notebook_model | apply readonly_raise].
Qed.

Lemma readonly_get (path : string) (content : bool)
    (type format : option string) (now : time) :
  readonly (get path content type format now).
Proof. apply readonly_get_rec. Qed.

Lemma get_unfold (path : string) (content : bool)
    (type format : option string) (now : time) :
  get path content type format now
  = get_rec (S 499) path content type format now.
Proof. reflexivity. Qed.

(** Off the root, [get] is the lookup of one notebook or an error. *)
Lemma get_rec_file (depth : nat) (path : string) (content : bool)
    (type format : option string) (now : time) (st : store) :
  String.eqb (strip path) "" = false ->
  get_rec (S depth) path content type format now st
  = if stored (strip path) st then
      if is_type type "notebook" ||
         (is_None type && endswith (strip path) ".ipynb")
      then _notebook_model (strip path) content now st
      else (Raise (HTTPError 400 (Some "bad type")), st)
    else (Raise (HTTPError 404 None), st).
Proof.
  intros Hroot. rewrite get_rec_S. unfold bind.
  rewrite exists_eq, strip_idem. unfold file_existsb.
  rewrite strip_idem, Hroot. simpl.
  rewrite orb_false_r.
  destruct (stored (strip path) st); simpl; [|reflexivity].
  destruct (_ || _); reflexivity.
Qed.

Lemma notebook_model_type (path : string) (content : bool) (now : time)
    (st st' : store) (m : Model.t document) :
  _notebook_model path content now st = (Ok m, st') ->
  Model.type m = Some "notebook".
Proof.
  unfold _notebook_model. destruct content.
  - intros E. apply bind_Ok in E. destruct E as [nb [st1 [_ E]]].
    inversion E; subst. unfold validate_notebook_model. simpl.
    destruct (validate _); reflexivity.
  - intros E. inversion E; subst. reflexivity.
Qed.

End ManagerFacts.

Lemma saved_once_eq :
  saved_once
  = Store [GridFile 0 "a.ipynb" 1 empty_notebook] [] 1.
Proof. reflexivity. Qed.

Lemma saved_twice_eq :
  saved_twice
  = Store [GridFile 0 "a.ipynb" 1 empty_notebook;
           GridFile 1 "a.ipynb" 2 empty_notebook]
          [Checkpoint 0 "a.ipynb" "0" 0 0] 2.
Proof. reflexivity. Qed.

(** ** rename *)

(** C10: [rename(old, new)] with [old] and [new] equal once the separators
    are stripped returns without an error and leaves every blob version and
    every checkpoint record as it was, whether the path exists or not. *)
Theorem rename_same_path_noop (H : Host) (old_path new_path : string)
    (now : time) (st : store) :
  strip old_path = strip new_path ->
  rename old_path new_path now st = (Ok tt, st).
Proof.
  intros E. unfold rename. rewrite E, String.eqb_refl. reflexivity.
Qed.

Lemma rename_same_path_noop_witness :
  strip "/a.ipynb" = strip "a.ipynb/" /\
  stored (strip "/a.ipynb") saved_once = true /\
  stored (strip "/b.ipynb") saved_once = false /\
  rename (H := ipython_host) "/a.ipynb" "a.ipynb/" 7 saved_once
  = (Ok tt, saved_once) /\
  rename (H := ipython_host) "/b.ipynb" "b.ipynb" 7 saved_once
  = (Ok tt, saved_once).
Proof.
  split; [reflexivity|]. split; [reflexivity|]. split; [reflexivity|].
  split.
  - apply (rename_same_path_noop ipython_host "/a.ipynb" "a.ipynb/").
    reflexivity.
  - apply (rename_same_path_noop ipython_host "/b.ipynb" "b.ipynb").
    reflexivity.
Defined.

(** X27: the conflict guard of [rename], as the code has it: for two paths
    that differ once stripped, when [file_exists(new)] holds (a blob version
    is stored under [new], so [new] is not the root), [rename(old, new)]
    raises 409 Conflict and leaves the store, hence the content and the
    checkpoint records of both paths, as it was. *)
Theorem rename_conflict (H : Host) (old_path new_path : string)
    (now : time) (st : store) :
  strip old_path <> strip new_path ->
  file_exists new_path st = (Ok true, st) ->
  rename old_path new_path now st = (Raise (HTTPError 409 None), st).
Proof.
  intros Hne Hex. unfold rename.
  destruct (String.eqb_spec (strip new_path) (strip old_path)) as [E|_];
    [congruence|].
  unfold bind. rewrite file_exists_eq, file_existsb_strip.
  rewrite file_exists_eq in Hex. inversion Hex as [Hb]. rewrite Hb.
  reflexivity.
Qed.

Lemma rename_conflict_witness :
  rename (H := ipython_host) "a.ipynb" "b.ipynb" 9
    (snd (save (H := ipython_host)
            (notebook_model (H := ipython_host) empty_notebook)
            "b.ipynb" 3 saved_once))
  = (Raise (HTTPError 409 None),
     Store [GridFile 0 "a.ipynb" 1 empty_notebook;
            GridFile 1 "b.ipynb" 3 empty_notebook] [] 2).
Proof.
  apply (rename_conflict ipython_host "a.ipynb" "b.ipynb").
  - discriminate.
  - reflexivity.
Defined.

(** ** get *)

(** C8, as the code has it: off the root, a path with no stored blob
    version does not exist and [get] raises 404; a stored path that does
    not end in [.ipynb], asked for with a type other than [notebook], makes
    [get] raise 400 [bad type]; and whatever [get] returns off the root is a
    notebook model, never a plain-file one. *)
Theorem get_off_root (H : Host) (p : string) (content : bool)
    (type format : option string) (now : time) (st : store) :
  strip p <> "" ->
  (stored (strip p) st = false ->
   exists_ p st = (Ok false, st) /\
   get p content type format now st = (Raise (HTTPError 404 None), st)) /\
  (stored (strip p) st = true ->
   is_type type "notebook" = false ->
   endswith (strip p) ".ipynb" = false ->
   get p content type format now st
   = (Raise (HTTPError 400 (Some "bad type")), st)) /\
  (forall m st',
   get p content type format now st = (Ok m, st') ->
   Model.type m = Some "notebook").
Proof.
  intros Hroot. apply String.eqb_neq in Hroot.
  rewrite get_unfold, (get_rec_file 499 p content type format now st Hroot).
  split; [|split].
  - intros Hs. rewrite Hs, exists_eq. unfold file_existsb.
    rewrite Hs, Hroot. split; reflexivity.
  - intros Hs Hty Hext. rewrite Hs, Hty, Hext.
    rewrite andb_false_r. reflexivity.
  - intros m st'. destruct (stored (strip p) st); [|discriminate].
    destruct (_ || _); [|discriminate].
    apply notebook_model_type.
Qed.

Lemma get_off_root_witness :
  (exists_ "b.ipynb" saved_once = (Ok false, saved_once) /\
   get (H := ipython_host) "b.ipynb" true None None 5 saved_once
   = (Raise (HTTPError 404 None), saved_once)) /\
  get (H := ipython_host) "notes.txt" true (Some "file") None 5
    (Store [GridFile 0 "notes.txt" 1 "text"] [] 1)
  = (Raise (HTTPError 400 (Some "bad type")),
     Store [GridFile 0 "notes.txt" 1 "text"] [] 1).
Proof.
  split.
  - apply (get_off_root ipython_host "b.ipynb" true None None 5 saved_once);
      [discriminate | reflexivity].
  - apply (get_off_root ipython_host "notes.txt" true (Some "file") None 5
             (Store [GridFile 0 "notes.txt" 1 "text"] [] 1));
      [discriminate | reflexivity | reflexivity | reflexivity].
Defined.

(** C8 as stated fails at the root: nothing was ever saved, and still
    [exists("")] is true and [get("")] returns the directory model. *)
Lemma get_root_never_saved :
  stored (strip "") empty_store = false /\
  exists_ "" empty_store = (Ok true, empty_store) /\
  get (H := ipython_host) "" true None None 5 empty_store
  = (Ok (Model.Make "" "" 5 5 (Some (inr [])) (Some "json") None true
           (Some "directory") None),
     empty_store).
Proof.
  split; [reflexivity|]. split; reflexivity.
Qed.

(** ** create_checkpoint *)








(** ** save *)

Arguments get : simpl never.

Section SaveFacts.

Context {H : Host}.

(** A successful [create_checkpoint] leaves the blobs alone and leaves a
    document of that path in the collection. *)
Lemma create_checkpoint_Ok (p : string) (now : time) (st st' : store)
    (i : Info.t) :
  create_checkpoint p now st = (Ok i, st') ->
  files st' = files st /\ next_oid st' = next_oid st /\
  exists c, In c (checkpoints st') /\ c_path c = strip p.
Proof.
  unfold create_checkpoint, bind, GridFS.get_version.
  destruct (GridFS.last_version (strip p) st) as [f|]; [|discriminate].
  unfold Collection.count, gets, Collection.upsert.
  destruct (find _ (checkpoints st)) as [c|] eqn:F.
  - destruct (c__id c =? f_id f)%nat; [|discriminate].
    intros E. inversion E; subst. repeat split.
    apply find_some in F. destruct F as [Hin Hm].
    exists c. split; [exact Hin|].
    unfold Collection.matches in Hm.
    repeat (apply andb_prop in Hm; destruct Hm as [Hm _]).
    now apply String.eqb_eq.
  - destruct (existsb _ (checkpoints st)); [discriminate|].
    intros E. inversion E; subst. repeat split. simpl.
    eexists. split; [apply in_or_app; right; left; reflexivity | reflexivity].
Qed.

(** What a successful save of a notebook went through: the checkpoint step,
    which touches no blob, the write of one more version, and the [get]
    that builds the answer. *)
Lemma save_notebook_Ok (m : in_model document) (d : document) (p : string)
    (now : time) (st st' : store) (r : Model.t document) :
  m_type m = Some "notebook" ->
  m_content m = Some d ->
  save m p now st = (Ok r, st') ->
  exists st1,
    files st1 = files st /\ next_oid st1 = next_oid st /\
    (file_existsb p st = true ->
     exists c, In c (checkpoints st1) /\ c_path c = strip p) /\
    st' = with_version st1 (strip p) (stored_text d (strip p)) now /\
    exists r0, get (strip p) false None None now st' = (Ok r0, st').
Proof.
  intros Hty Hc. unfold save. rewrite Hty, Hc.
  cbn [is_None andb]. intros E.
  apply bind_Ok in E. destruct E as [fe [s0 [E0 E]]].
  rewrite file_exists_eq, file_existsb_strip in E0.
  inversion E0; subst fe s0; clear E0.
  apply bind_Ok in E. destruct E as [u1 [st1 [E1 E]]].
  apply bind_Ok in E. destruct E as [u2 [st2 [E2 E]]].
  apply bind_Ok in E. destruct E as [r0 [st3 [E3 E]]].
  assert (st3 = st2) by (eapply readonly_run; [apply readonly_get|eauto]).
  subst st3.
  assert (st' = st2).
  { destruct (if String.eqb "notebook" "notebook" then _ else _) as [msg|];
      [destruct (String.eqb msg "")|]; inversion E; reflexivity. }
  subst st'.
  assert (Hst2 : st2 = with_version st1 (strip p) (stored_text d (strip p)) now).
  { unfold except_reraise_HTTPError in E2. cbn in E2.
    inversion E2. reflexivity. }
  exists st1.
  assert (Hpre : files st1 = files st /\ next_oid st1 = next_oid st /\
                 (file_existsb p st = true ->
                  exists c, In c (checkpoints st1) /\ c_path c = strip p)).
  { destruct (file_existsb p st).
    - apply bind_Ok in E1. destruct E1 as [cps [s1 [L E1]]].
      rewrite list_checkpoints_eq in L. inversion L; subst cps s1; clear L.
      rewrite strip_idem in E1.
      destruct (filter _ (checkpoints st)) as [|c0 cs] eqn:F; cbn in E1.
      + apply bind_Ok in E1. destruct E1 as [i [s1 [C E1]]].
        inversion E1; subst s1. apply create_checkpoint_Ok in C.
        rewrite strip_idem in C. destruct C as [C1 [C2 C3]].
        repeat split; auto.
      + inversion E1; subst st1. repeat split. intros _.
        assert (Hin : In c0 (filter (Collection.at_path (strip p))
                               (checkpoints st))) by (rewrite F; now left).
        apply filter_In in Hin. destruct Hin as [Hin Hp].
        exists c0. split; [exact Hin | now apply String.eqb_eq].
    - inversion E1; subst st1. repeat split. discriminate. }
  destruct Hpre as [P1 [P2 P3]].
  repeat split; auto. exists r0. exact E3.
Qed.

(** C1, as the code has it: on a path that already has a blob version (any
    save but the first), a successful save of a notebook leaves at least
    one checkpoint record listed for the path. *)
Theorem save_again_has_checkpoint (m : in_model document) (p : string)
    (now : time) (st st' : store) (r : Model.t document) :
  m_type m = Some "notebook" ->
  file_exists p st = (Ok true, st) ->
  save m p now st = (Ok r, st') ->
  exists c cs, list_checkpoints p st' = (Ok (c :: cs), st').
Proof.
  intros Hty Hex Hsave.
  rewrite file_exists_eq in Hex. inversion Hex as [Hb].
  destruct (m_content m) as [d|] eqn:Hc.
  - destruct (save_notebook_Ok m p now st Hty Hc Hsave)
      as [st1 [_ [_ [Hcp [Hst' _]]]]].
    destruct (Hcp Hb) as [c [Hin Hp]].
    rewrite list_checkpoints_eq.
    assert (Hf : In c (filter (Collection.at_path (strip p))
                         (checkpoints st'))).
    { apply filter_In. split.
      - subst st'. exact Hin.
      - unfold Collection.at_path. rewrite Hp. apply String.eqb_refl. }
    destruct (filter _ (checkpoints st')) as [|c0 cs]; [destruct Hf|].
    simpl. eauto.
  - unfold save in Hsave. rewrite Hty, Hc in Hsave. discriminate.
Qed.

End SaveFacts.

Lemma save_again_has_checkpoint_witness :
  exists c cs,
    list_checkpoints "a.ipynb" saved_twice = (Ok (c :: cs), saved_twice).
Proof.
  apply (@save_again_has_checkpoint ipython_host
           (notebook_model (H := ipython_host) empty_notebook)
           "a.ipynb" 2 saved_once saved_twice
           (Model.Make "a.ipynb" "a.ipynb" 2 2 None None None true
              (Some "notebook") None));
    reflexivity.
Defined.

(** C1 as stated fails: the first save on a path never saved finds no blob
    version, so it creates no checkpoint, and none is listed afterwards. *)
Lemma first_save_lists_no_checkpoint :
  stored (strip "a.ipynb") empty_store = false /\
  save (H := ipython_host) (notebook_model (H := ipython_host) empty_notebook)
       "a.ipynb" 1 empty_store
  = (Ok (Model.Make "a.ipynb" "a.ipynb" 1 1 None None None true
           (Some "notebook") None),
     saved_once) /\
  list_checkpoints "a.ipynb" saved_once = (Ok [], saved_once).
Proof.
  split; [reflexivity|]. split; reflexivity.
Qed.

(** ** save, then get *)

Section RoundTrip.

Context {H : Host}.

Lemma newest_app (b : option grid_file) (l : list grid_file) (f : grid_file) :
  GridFS.newest b (l ++ [f])
  = match GridFS.newest b l with
    | None => Some f
    | Some g => if (f_uploadDate g <=? f_uploadDate f)%nat
                then Some f else Some g
    end.
Proof.
  revert b. induction l as [|x l IH]; intros b; simpl; [|apply IH].
  destruct b; reflexivity.
Qed.

Lemma stored_with_version (st : store) (name data : string) (now : time) :
  stored name (with_version st name data now) = true.
Proof.
  unfold stored, with_version. simpl. apply mem_In.
  rewrite map_app. apply in_or_app. right. now left.
Qed.

(** The version just written is the one [get_version] finds. *)
Lemma last_version_with_version (st : store) (name data : string)
    (now : time) :
  older name now st = true ->
  GridFS.last_version name (with_version st name data now)
  = Some (GridFile (next_oid st) name now data).
Proof.
  intros Hold. unfold GridFS.last_version, with_version. simpl.
  rewrite filter_app. simpl. unfold GridFS.named at 2. simpl.
  rewrite String.eqb_refl, newest_app.
  destruct (GridFS.newest None (filter (GridFS.named name) (files st)))
    as [g|] eqn:N; [|reflexivity].
  apply newest_In in N. destruct N as [N|N]; [discriminate|].
  apply filter_In in N. destruct N as [Hin Hn].
  unfold older in Hold. rewrite forallb_forall in Hold.
  specialize (Hold g Hin). rewrite Hn in Hold. simpl in Hold.
  apply Nat.ltb_lt in Hold.
  assert (E : (f_uploadDate g <=? now)%nat = true) by (apply Nat.leb_le; lia).
  simpl. now rewrite E.
Qed.

(** Its [ObjectId] leads back to it. *)
Lemma fs_get_with_version (st : store) (name data : string) (now : time) :
  fresh_ids st = true ->
  GridFS.get (next_oid st) (with_version st name data now)
  = (Ok (GridFile (next_oid st) name now data),
     with_version st name data now).
Proof.
  intros Hf. unfold GridFS.get.
  assert (E : find (fun f => (f_id f =? next_oid st)%nat)
                (files (with_version st name data now))
              = Some (GridFile (next_oid st) name now data)).
  { unfold with_version. simpl.
    unfold fresh_ids in Hf. rewrite forallb_forall in Hf.
    induction (files st) as [|x l IH]; simpl.
    - now rewrite Nat.eqb_refl.
    - assert (Hx : (f_id x <? next_oid st)%nat = true)
        by (apply Hf; now left).
      apply Nat.ltb_lt in Hx.
      destruct (Nat.eqb_spec (f_id x) (next_oid st)); [lia|].
      apply IH. intros y Hy. apply Hf. now right. }
  now rewrite E.
Qed.

(** A blob stored under the empty name breaks the listing of the root:
    [get] lists it, calls itself for it, and never comes back. *)
Lemma get_rec_root_blob (depth : nat) :
  forall content type format now st,
    stored "" st = true ->
    exists e, get_rec depth "" content type format now st = (Raise e, st).
Proof.
  induction depth as [|d IH]; intros content type format now st Hs.
  - eexists. reflexivity.
  - rewrite get_rec_S. change (strip "") with "".
    unfold bind. rewrite exists_eq. change (strip "") with "".
    rewrite String.eqb_refl, orb_true_r. cbn [negb].
    destruct (negb (is_None type || is_type type "directory"));
      [eexists; reflexivity|].
    unfold _dir_model, bind, GridFS.list, gets.
    destruct (@mapM_raises _ _
                (fun name => get_rec d name content None None now)
                (GridFS.distinct (map f_filename (files st))) "" st
                (fun y => readonly_get_rec d y content None None now))
      as [e E].
    + apply mem_In. rewrite mem_distinct. exact Hs.
    + apply IH. exact Hs.
    + rewrite E. eexists. reflexivity.
Qed.

Lemma validate_notebook_model_keeps (m : Model.t document) :
  Model.content (validate_notebook_model m) = Model.content m /\
  Model.type (validate_notebook_model m) = Model.type m /\
  Model.format (validate_notebook_model m) = Model.format m /\
  Model.name (validate_notebook_model m) = Model.name m /\
  Model.path (validate_notebook_model m) = Model.path m.
Proof.
  unfold validate_notebook_model.
  destruct m as [n pa lm cr c f mt w ty msg]; cbn.
  destruct c as [[nb|l]|]; try (repeat split; reflexivity).
  destruct (validate nb); repeat split; reflexivity.
Qed.

(** C5, as the code has it: in a store whose identifiers are fresh, at a
    clock reading past the upload dates of the path's earlier versions, when
    [save] of a notebook model returns, the path is off the root and ends in
    [.ipynb], and [get(p, content=True)] reads the text that [save] wrote:
    it returns a notebook model in format [json] whose content is the
    document that [nbformat.read] decodes from that text, as
    [mark_trusted_cells] leaves it, and it raises 400 when [nbformat.read]
    refuses the text.  The content is the saved document where the host
    reads it back unchanged. *)
Theorem save_then_get (m : in_model document) (d : document) (p : string)
    (now now' : time) (st st' : store) (r : Model.t document) :
  m_type m = Some "notebook" ->
  m_content m = Some d ->
  fresh_ids st = true ->
  older (strip p) now st = true ->
  save m p now st = (Ok r, st') ->
  (strip p <> "" /\ endswith (strip p) ".ipynb" = true) /\
  match nbformat_read (stored_text d (strip p)) with
  | Some nb =>
      exists g,
        get p true None None now' st' = (Ok g, st') /\
        Model.content g = Some (inl (mark_trusted_cells nb (strip p))) /\
        Model.type g = Some "notebook" /\
        Model.format g = Some "json"
  | None =>
      get p true None None now' st' = (Raise (HTTPError 400 None), st')
  end /\
  (reads_back d (strip p) ->
   exists g,
     get p true None None now' st' = (Ok g, st') /\
     Model.content g = Some (inl d) /\
     Model.type g = Some "notebook" /\
     Model.format g = Some "json").
Proof.
  intros Hty Hc Hfresh Hold Hsave.
  destruct (save_notebook_Ok m p now st Hty Hc Hsave)
    as [st1 [F1 [F2 [_ [Hst' [r0 Hget]]]]]].
  assert (Hs : stored (strip p) st' = true)
    by (subst st'; apply stored_with_version).
  assert (Hroot : String.eqb (strip p) "" = false).
  { destruct (String.eqb_spec (strip p) "") as [E|_]; [|reflexivity].
    exfalso. rewrite E in Hget, Hs. rewrite get_unfold in Hget.
    destruct (get_rec_root_blob (S 499) false None None now st' Hs)
      as [e Hr].
    congruence. }
  assert (Hext : endswith (strip p) ".ipynb" = true).
  { rewrite get_unfold, get_rec_file in Hget
      by (rewrite strip_idem; exact Hroot).
    rewrite strip_idem, Hs in Hget. cbn [is_type is_None orb andb] in Hget.
    destruct (endswith (strip p) ".ipynb"); [reflexivity | discriminate]. }
  assert (Hold1 : older (strip p) now st1 = true)
    by (unfold older in *; now rewrite F1).
  assert (Hfresh1 : fresh_ids st1 = true)
    by (unfold fresh_ids in *; now rewrite F1, F2).
  split; [split; [now apply String.eqb_neq | exact Hext]|].
  rewrite get_unfold, get_rec_file by exact Hroot.
  rewrite Hs. cbn [is_type is_None orb andb]. rewrite Hext.
  unfold _notebook_model, bind, _read_notebook, bind, GridFS.get_version.
  rewrite Hst'.
  rewrite last_version_with_version by exact Hold1.
  cbn [f_id].
  rewrite fs_get_with_version by exact Hfresh1.
  cbn [f_data]. unfold reads_back.
  destruct (nbformat_read (stored_text d (strip p))) as [nb|].
  - destruct (validate_notebook_model_keeps
                (Model.set_format "json"
                   (Model.set_content
                      (inl (mark_trusted_cells nb (strip p)))
                      (Model.set_type "notebook"
                         (_base_model (strip p) now')))))
      as [K1 [K2 [K3 _]]].
    split.
    + eexists. split; [reflexivity|].
      rewrite K1, K2, K3. split; [reflexivity|]. split; reflexivity.
    + intros Hrb. cbn in Hrb. inversion Hrb as [Hnb].
      eexists. split; [reflexivity|].
      rewrite K1, K2, K3, Hnb. split; [reflexivity|]. split; reflexivity.
  - split; [reflexivity | discriminate].
Qed.

End RoundTrip.

Lemma save_then_get_witness :
  ((strip "a.ipynb" <> "" /\ endswith (strip "a.ipynb") ".ipynb" = true) /\
   (exists g,
      get (H := trusting_host) "a.ipynb" true None None 5
        (Store [GridFile 0 "a.ipynb" 1 "{cells: [code]}"] [] 1)
      = (Ok g, Store [GridFile 0 "a.ipynb" 1 "{cells: [code]}"] [] 1) /\
      Model.content g = Some (inl "{cells: [code]} (trusted)") /\
      Model.type g = Some "notebook" /\
      Model.format g = Some "json") /\
   (reads_back (H := trusting_host) "{cells: [code]}" (strip "a.ipynb") ->
    exists g,
      get (H := trusting_host) "a.ipynb" true None None 5
        (Store [GridFile 0 "a.ipynb" 1 "{cells: [code]}"] [] 1)
      = (Ok g, Store [GridFile 0 "a.ipynb" 1 "{cells: [code]}"] [] 1) /\
      Model.content g = Some (inl "{cells: [code]}") /\
      Model.type g = Some "notebook" /\
      Model.format g = Some "json")) /\
  (reads_back (H := ipython_host) empty_notebook (strip "a.ipynb") /\
   exists g,
     get (H := ipython_host) "a.ipynb" true None None 5 saved_twice
     = (Ok g, saved_twice) /\
     Model.content g = Some (inl empty_notebook) /\
     Model.type g = Some "notebook" /\
     Model.format g = Some "json").
Proof.
  split.
  - exact (@save_then_get trusting_host
             (notebook_model (H := trusting_host) "{cells: [code]}")
             "{cells: [code]}" "a.ipynb" 1 5 empty_store
             (Store [GridFile 0 "a.ipynb" 1 "{cells: [code]}"] [] 1)
             (Model.Make "a.ipynb" "a.ipynb" 1 1 None None None true
                (Some "notebook") None)
             eq_refl eq_refl eq_refl eq_refl eq_refl).
  - split; [reflexivity|].
    exact (proj2 (proj2 (@save_then_get ipython_host
             (notebook_model (H := ipython_host) empty_notebook)
             empty_notebook "a.ipynb" 2 5 saved_once saved_twice
             (Model.Make "a.ipynb" "a.ipynb" 2 2 None None None true
                (Some "notebook") None)
             eq_refl eq_refl eq_refl eq_refl eq_refl)) eq_refl).
Defined.

(** C5 as stated fails twice over.  On a path that does not end in
    [.ipynb], [save] writes the notebook and then raises 400 from its
    closing [get], and [get(p, content=True)] raises 400 as well, so no
    document comes back.  And where [save] returns, the document that comes
    back is the one the host's hooks leave: a host that marks the cells it
    trusts returns the saved notebook with the mark in it, which is not the
    saved content. *)
Lemma save_then_get_plain_path :
  (save (H := ipython_host)
        (notebook_model (H := ipython_host) empty_notebook)
        "notes" 1 empty_store
   = (Raise (HTTPError 400 (Some "bad type")),
      Store [GridFile 0 "notes" 1 empty_notebook] [] 1) /\
   get (H := ipython_host) "notes" true None None 2
       (Store [GridFile 0 "notes" 1 empty_notebook] [] 1)
   = (Raise (HTTPError 400 (Some "bad type")),
      Store [GridFile 0 "notes" 1 empty_notebook] [] 1)) /\
  (save (H := trusting_host)
        (notebook_model (H := trusting_host) "{cells: [code]}")
        "a.ipynb" 1 empty_store
   = (Ok (Model.Make "a.ipynb" "a.ipynb" 1 1 None None None true
            (Some "notebook") None),
      Store [GridFile 0 "a.ipynb" 1 "{cells: [code]}"] [] 1) /\
   get (H := trusting_host) "a.ipynb" true None None 2
       (Store [GridFile 0 "a.ipynb" 1 "{cells: [code]}"] [] 1)
   = (Ok (Model.Make "a.ipynb" "a.ipynb" 2 2
            (Some (inl "{cells: [code]} (trusted)")) (Some "json") None true
            (Some "notebook") None),
      Store [GridFile 0 "a.ipynb" 1 "{cells: [code]}"] [] 1) /\
   "{cells: [code]} (trusted)" <> "{cells: [code]}").
Proof.
  split; [split; reflexivity|].
  split; [reflexivity|]. split; [reflexivity | discriminate].
Qed.

(** ** rename onto the root *)

(** C6 fails in the code at the root.  [exists("")] is true and the two
    paths are distinct, so [rename("a.ipynb", "")] is to raise 409 Conflict
    and leave both paths as they were.  The guard of [rename] asks
    [file_exists], which is false for the root: the call returns, the
    notebook is stored under the empty name and is gone from [a.ipynb].
    From then on every [get] of the root raises, since the listing of the
    root calls [get] for the empty name, which is the root again, until the
    interpreter gives up; and [delete("")] removes nothing, its guard being
    [file_exists] as well. *)
Theorem rename_onto_root_breaks_the_root :
  strip "a.ipynb" <> strip "" /\
  exists_ "a.ipynb" saved_once = (Ok true, saved_once) /\
  exists_ "" saved_once = (Ok true, saved_once) /\
  file_exists "" saved_once = (Ok false, saved_once) /\
  rename (H := ipython_host) "a.ipynb" "" 9 saved_once
  = (Ok tt, renamed_onto_root) /\
  renamed_onto_root = Store [GridFile 1 "" 9 empty_notebook] [] 2 /\
  exists_ "a.ipynb" renamed_onto_root = (Ok false, renamed_onto_root) /\
  (forall content type format now,
     exists e,
       get (H := ipython_host) "" content type format now renamed_onto_root
       = (Raise e, renamed_onto_root)) /\
  get (H := ipython_host) "" true None None 10 renamed_onto_root
  = (Raise RecursionLimit, renamed_onto_root) /\
  delete "" renamed_onto_root = (Ok tt, renamed_onto_root).
Proof.
  split; [discriminate|].
  split; [reflexivity|]. split; [reflexivity|]. split; [reflexivity|].
  split; [reflexivity|]. split; [reflexivity|]. split; [reflexivity|].
  split; [|split; [vm_compute; reflexivity | reflexivity]].
  intros content type format now. rewrite get_unfold.
  apply (@get_rec_root_blob ipython_host). reflexivity.
Qed.

(** ** The listing of the root *)

Section Listing.

Context {H : Host}.

(** The first save of a notebook on a path that ends in [.ipynb] returns,
    and what it leaves is the store with that one version more. *)
Lemma save_fresh_notebook (d : document) (p : string) (now : time)
    (st : store) :
  String.eqb (strip p) "" = false ->
  endswith (strip p) ".ipynb" = true ->
  stored (strip p) st = false ->
  exists r,
    save (notebook_model d) p now st
    = (Ok r, with_version st (strip p) (stored_text d (strip p)) now).
Proof.
  intros Hroot Hext Hs. unfold save, notebook_model.
  cbn [m_type m_content is_None andb]. unfold bind at 1.
  rewrite file_exists_eq, file_existsb_strip. unfold file_existsb.
  rewrite Hs, andb_false_r. unfold bind at 1. unfold ret at 1.
  unfold bind at 1. cbn [String.eqb Ascii.eqb Bool.eqb].
  unfold except_reraise_HTTPError, _save_notebook, bind at 1, GridFS.put.
  unfold ret at 1. fold (stored_text d (strip p)).
  fold (with_version st (strip p) (stored_text d (strip p)) now).
  unfold bind at 1.
  rewrite get_unfold, get_rec_file by (rewrite strip_idem; exact Hroot).
  rewrite strip_idem, stored_with_version.
  cbn [is_type is_None orb andb]. rewrite Hext.
  unfold _notebook_model, ret.
  destruct (validate d) as [msg|]; [destruct (String.eqb msg "")|];
    eexists; reflexivity.
Qed.

(** The model of one stored notebook, with its content. *)
Lemma notebook_model_content (path : string) (now : time) (st : store)
    (f g : grid_file) (nb : document) :
  GridFS.last_version path st = Some f ->
  GridFS.get (f_id f) st = (Ok g, st) ->
  nbformat_read (f_data g) = Some nb ->
  exists m,
    _notebook_model path true now st = (Ok m, st) /\
    Model.name m = rsplit_last path /\
    Model.path m = path /\
    Model.type m = Some "notebook".
Proof.
  intros Hv Hg Hr.
  unfold _notebook_model, bind, _read_notebook, bind, GridFS.get_version.
  rewrite Hv, Hg, Hr. unfold ret. eexists. split; [reflexivity|].
  match goal with
  | |- context [validate_notebook_model ?x] =>
      destruct (validate_notebook_model_keeps x) as [_ [K2 [_ [K4 K5]]]]
  end.
  rewrite K2, K4, K5. repeat split; reflexivity.
Qed.

(** C9: from the empty store, after a notebook is saved at [a.ipynb] and
    another at [b.ipynb], [get("", content=True)] returns a model of type
    [directory] whose content has exactly two entries, named [a.ipynb] and
    [b.ipynb], one for each name the store lists. *)
Theorem root_lists_both (d1 d2 : document) (t1 t2 t3 : time) :
  readable d1 "a.ipynb" = true ->
  readable d2 "b.ipynb" = true ->
  exists r1 st1 r2 st2 m,
    save (notebook_model d1) "a.ipynb" t1 empty_store = (Ok r1, st1) /\
    save (notebook_model d2) "b.ipynb" t2 st1 = (Ok r2, st2) /\
    get "" true None None t3 st2 = (Ok m, st2) /\
    Model.type m = Some "directory" /\
    map (@Model.name _) (Model.entries m) = ["a.ipynb"; "b.ipynb"] /\
    GridFS.list st2 = (Ok (map (@Model.path _) (Model.entries m)), st2).
Proof.
  intros R1 R2.
  unfold readable in *.
  destruct (nbformat_read (stored_text d1 "a.ipynb")) as [n1|] eqn:E1; [|discriminate].
  destruct (nbformat_read (stored_text d2 "b.ipynb")) as [n2|] eqn:E2; [|discriminate].
  destruct (save_fresh_notebook d1 "a.ipynb" t1 empty_store) as [r1 S1]; try reflexivity.
  change (strip "a.ipynb") with "a.ipynb" in S1.
  set (st1 := with_version empty_store "a.ipynb" (stored_text d1 "a.ipynb") t1) in *.
  destruct (save_fresh_notebook d2 "b.ipynb" t2 st1) as [r2 S2]; try reflexivity.
  change (strip "b.ipynb") with "b.ipynb" in S2.
  set (st2 := with_version st1 "b.ipynb" (stored_text d2 "b.ipynb") t2) in *.
  destruct (@notebook_model_content "a.ipynb" t3 st2
              (GridFile 0 "a.ipynb" t1 (stored_text d1 "a.ipynb"))
              (GridFile 0 "a.ipynb" t1 (stored_text d1 "a.ipynb"))
              n1) as [m1 [M1 [N1 [P1 T1]]]]; try reflexivity; try exact E1.
  destruct (@notebook_model_content "b.ipynb" t3 st2
              (GridFile 1 "b.ipynb" t2 (stored_text d2 "b.ipynb"))
              (GridFile 1 "b.ipynb" t2 (stored_text d2 "b.ipynb"))
              n2) as [m2 [M2 [N2 [P2 T2]]]]; try reflexivity; try exact E2.
  exists r1, st1, r2, st2.
  eexists. split; [exact S1|]. split; [exact S2|].
  split.
  - rewrite get_unfold, get_rec_S. change (strip "") with "".
    unfold bind at 1. rewrite exists_eq. change (strip "") with "".
    cbn [String.eqb orb negb is_None]. rewrite orb_true_r. cbn [negb].
    unfold _dir_model, bind at 1. unfold GridFS.list, gets.
    change (GridFS.distinct (map f_filename (files st2))) with ["a.ipynb"; "b.ipynb"].
    cbn [mapM]. unfold bind at 1. unfold bind at 1.
    rewrite (get_rec_file 498 "a.ipynb" true None None t3 st2) by reflexivity.
    change (strip "a.ipynb") with "a.ipynb".
    change (stored "a.ipynb" st2) with true.
    cbn [is_type is_None orb andb]. change (endswith "a.ipynb" ".ipynb") with true.
    cbv iota. rewrite M1.
    unfold bind at 1. unfold bind at 1.
    rewrite (get_rec_file 498 "b.ipynb" true None None t3 st2) by reflexivity.
    change (strip "b.ipynb") with "b.ipynb".
    change (stored "b.ipynb" st2) with true.
    cbn [is_type is_None orb andb]. change (endswith "b.ipynb" ".ipynb") with true.
    cbv iota. rewrite M2.
    unfold bind, ret. reflexivity.
  - cbn. rewrite N1, N2, P1, P2. repeat split; reflexivity.
Qed.

End Listing.

Lemma root_lists_both_witness :
  exists r1 st1 r2 st2 m,
    save (H := ipython_host) (notebook_model (H := ipython_host) empty_notebook)
         "a.ipynb" 1 empty_store = (Ok r1, st1) /\
    save (H := ipython_host) (notebook_model (H := ipython_host) empty_notebook)
         "b.ipynb" 2 st1 = (Ok r2, st2) /\
    get (H := ipython_host) "" true None None 3 st2 = (Ok m, st2) /\
    Model.type m = Some "directory" /\
    map (@Model.name _) (Model.entries m) = ["a.ipynb"; "b.ipynb"] /\
    GridFS.list st2 = (Ok (map (@Model.path _) (Model.entries m)), st2).
Proof.
  apply (@root_lists_both ipython_host empty_notebook empty_notebook 1 2 3);
    reflexivity.
Defined.

(** ** delete *)

(** [delete] of a path that has no blob version returns and writes
    nothing; of a path that has some, it removes the file [get_version]
    finds, the latest one, and no other. *)
Lemma delete_eq (p : string) (st : store) :
  (file_exists p st = (Ok false, st) -> delete p st = (Ok tt, st)) /\
  (forall f,
   file_exists p st = (Ok true, st) ->
   GridFS.last_version (strip p) st = Some f ->
   delete p st = (Ok tt, without (f_id f) st)).
Proof.
  split.
  - intros E. unfold delete, bind. rewrite E. reflexivity.
  - intros f E L. unfold delete, bind. rewrite E. cbn [negb].
    unfold GridFS.get_version. rewrite L. reflexivity.
Qed.

(** A version of the same name under another [ObjectId] outlives the
    [delete]. *)
Lemma delete_keeps_other_versions (p : string) (st : store)
    (f g : grid_file) :
  file_exists p st = (Ok true, st) ->
  GridFS.last_version (strip p) st = Some f ->
  In g (files st) -> f_filename g = strip p -> f_id g <> f_id f ->
  exists st',
    delete p st = (Ok tt, st') /\ file_exists p st' = (Ok true, st').
Proof.
  intros E L Hin Hname Hid.
  exists (without (f_id f) st).
  split; [now apply delete_eq|].
  assert (Hr : negb (String.eqb (strip p) "") = true).
  { rewrite file_exists_eq in E.
    assert (Hb : file_existsb p st = true) by congruence.
    unfold file_existsb in Hb. now apply andb_prop in Hb. }
  rewrite file_exists_eq. unfold file_existsb. rewrite Hr. cbn [andb].
  assert (Hs : stored (strip p) (without (f_id f) st) = true);
    [|now rewrite Hs].
  unfold stored. apply mem_In. rewrite <- Hname. apply in_map.
  unfold without. cbn [files]. apply filter_In. split; [exact Hin|].
  apply negb_true_iff. now apply Nat.eqb_neq.
Qed.

(** C2 on a notebook saved twice: [delete] returns, one version is gone,
    and the path still exists. *)
Theorem delete_after_two_saves :
  file_exists "a.ipynb" saved_twice = (Ok true, saved_twice) /\
  delete "a.ipynb" saved_twice
  = (Ok tt, Store [GridFile 0 "a.ipynb" 1 empty_notebook]
                  [Checkpoint 0 "a.ipynb" "0" 0 0] 2) /\
  file_exists "a.ipynb"
    (Store [GridFile 0 "a.ipynb" 1 empty_notebook]
           [Checkpoint 0 "a.ipynb" "0" 0 0] 2)
  = (Ok true,
     Store [GridFile 0 "a.ipynb" 1 empty_notebook]
           [Checkpoint 0 "a.ipynb" "0" 0 0] 2).
Proof.
  split; [reflexivity|]. split.
  - apply (proj2 (delete_eq "a.ipynb" saved_twice)
             (GridFile 1 "a.ipynb" 2 empty_notebook)); reflexivity.
  - rewrite file_exists_eq. reflexivity.
Qed.

(** ** rename of a notebook that was saved more than once *)

(** C3 on a notebook saved twice: [rename] returns, the new path exists,
    its checkpoint record moved, and the old path still exists. *)
Theorem rename_after_two_saves :
  exists_ "a.ipynb" saved_twice = (Ok true, saved_twice) /\
  exists_ "b.ipynb" saved_twice = (Ok false, saved_twice) /\
  rename (H := ipython_host) "a.ipynb" "b.ipynb" 3 saved_twice
  = (Ok tt, Store [GridFile 0 "a.ipynb" 1 empty_notebook;
                   GridFile 2 "b.ipynb" 3 empty_notebook]
                  [Checkpoint 0 "b.ipynb" "0" 0 0] 3) /\
  exists_ "a.ipynb"
    (Store [GridFile 0 "a.ipynb" 1 empty_notebook;
            GridFile 2 "b.ipynb" 3 empty_notebook]
           [Checkpoint 0 "b.ipynb" "0" 0 0] 3)
  = (Ok true,
     Store [GridFile 0 "a.ipynb" 1 empty_notebook;
            GridFile 2 "b.ipynb" 3 empty_notebook]
           [Checkpoint 0 "b.ipynb" "0" 0 0] 3).
Proof.
  split; [rewrite exists_eq; reflexivity|].
  split; [rewrite exists_eq; reflexivity|].
  split; [reflexivity|].
  rewrite exists_eq. reflexivity.
Qed.

(** ** save of a plain file *)

Lemma bind_raises {A B} (c : M A) (k : A -> M B) :
  (forall a st, exists e st', k a st = (Raise e, st')) ->
  forall st, exists e st', bind c k st = (Raise e, st').
Proof.
  intros Hk st. unfold bind.
  destruct (c st) as [[a|e] st1]; [apply Hk | eauto].
Qed.

(** With no type asked for, [get] of a path off the root that does not end
    in [.ipynb] raises: 404 when nothing is stored there, 400 otherwise. *)
Lemma get_plain_path_raises (H : Host) (p : string) (content : bool)
    (format : option string) (now : time) (st : store) :
  strip p <> "" ->
  endswith (strip p) ".ipynb" = false ->
  exists e, get p content None format now st = (Raise e, st).
Proof.
  intros Hroot Hext. apply String.eqb_neq in Hroot.
  rewrite get_unfold, get_rec_file by exact Hroot.
  rewrite Hext. cbn [is_type is_None orb andb].
  destruct (stored (strip p) st); eexists; reflexivity.
Qed.

(** C4 on a plain path: whatever the host's [_save_file] does, [save] of a
    model of type [file] at a path off the root that does not end in
    [.ipynb] raises; it returns no model. *)
Theorem save_file_raises (H : Host) (m : in_model document) (p : string)
    (now : time) (st : store) :
  m_type m = Some "file" ->
  strip p <> "" ->
  endswith (strip p) ".ipynb" = false ->
  exists e st', save m p now st = (Raise e, st').
Proof.
  intros Hty Hroot Hext. unfold save. rewrite Hty.
  destruct (is_None (m_content m) && _); [eexists; eexists; reflexivity|].
  apply bind_raises. intros fe st0.
  apply bind_raises. intros u1 st1.
  apply bind_raises. intros u2 st2.
  cbn [String.eqb Ascii.eqb Bool.eqb].
  destruct (get_plain_path_raises H (strip p) false None now st2)
    as [e E]; rewrite ?strip_idem; auto.
  unfold bind. rewrite E. eauto.
Qed.

Lemma save_file_raises_witness :
  exists e st',
    save (H := ipython_host) (file_model (H := ipython_host) "hello" "text")
         "a.txt" 1 empty_store
    = (Raise e, st').
Proof.
  apply (save_file_raises ipython_host
           (file_model (H := ipython_host) "hello" "text") "a.txt" 1
           empty_store);
    [reflexivity | discriminate | reflexivity].
Defined.

(** On the base class as shipped the lookup of [_save_file] is what
    fails, and [save] turns that into a 500. *)
Lemma save_file_ipython :
  save (H := ipython_host) (file_model (H := ipython_host) "hello" "text")
       "a.txt" 1 empty_store
  = (Raise (HTTPError 500 None), empty_store).
Proof. reflexivity. Qed.

(** ** Fresh identifiers are an invariant

    The round trip of [save] and [get] is stated for stores in which no
    file carries an [ObjectId] the driver has yet to allot.  The empty
    store is such a store and the manager's writes keep it so. *)

Section Invariant.

Context {H : Host}.

Lemma fresh_ids_empty : fresh_ids empty_store = true.
Proof. reflexivity. Qed.

Lemma fresh_ids_same_files (st st' : store) :
  files st' = files st -> next_oid st' = next_oid st ->
  fresh_ids st' = fresh_ids st.
Proof. intros F N. unfold fresh_ids. now rewrite F, N. Qed.

Lemma fresh_ids_with_version (st : store) (name data : string) (now : time) :
  fresh_ids st = true -> fresh_ids (with_version st name data now) = true.
Proof.
  unfold fresh_ids, with_version. cbn [files next_oid]. intros Hf.
  rewrite forallb_forall in *. intros f Hin.
  apply in_app_or in Hin. destruct Hin as [Hin|[<-|[]]].
  - specialize (Hf f Hin). apply Nat.ltb_lt in Hf. apply Nat.ltb_lt. lia.
  - cbn [f_id]. apply Nat.ltb_lt. lia.
Qed.

Lemma fresh_ids_without (i : oid) (st : store) :
  fresh_ids st = true -> fresh_ids (without i st) = true.
Proof.
  unfold fresh_ids, without. cbn [files next_oid]. intros Hf.
  rewrite forallb_forall in *. intros f Hin.
  apply filter_In in Hin. now apply Hf.
Qed.

Lemma fresh_ids_delete (p : string) (st : store) :
  fresh_ids st = true -> fresh_ids (snd (delete p st)) = true.
Proof.
  intros Hf. unfold delete, bind. rewrite file_exists_eq.
  destruct (file_existsb p st); cbn [negb]; [|exact Hf].
  unfold GridFS.get_version.
  destruct (GridFS.last_version (strip p) st) as [f|]; [|exact Hf].
  apply fresh_ids_without. exact Hf.
Qed.

(** [create_checkpoint] writes to the checkpoint collection only. *)
Lemma create_checkpoint_files (p : string) (now : time) (st : store) :
  files (snd (create_checkpoint p now st)) = files st /\
  next_oid (snd (create_checkpoint p now st)) = next_oid st.
Proof.
  unfold create_checkpoint, bind, GridFS.get_version.
  destruct (GridFS.last_version (strip p) st) as [f|]; [|now split].
  unfold Collection.count, gets, Collection.upsert.
  destruct (find _ (checkpoints st)) as [c|].
  - destruct (c__id c =? f_id f)%nat; now split.
  - destruct (existsb _ (checkpoints st)); now split.
Qed.

Lemma fresh_ids_rename (old_path new_path : string) (now : time)
    (st : store) :
  fresh_ids st = true ->
  fresh_ids (snd (rename old_path new_path now st)) = true.
Proof.
  intros Hf. unfold rename.
  destruct (String.eqb (strip new_path) (strip old_path)); [exact Hf|].
  unfold bind at 1. rewrite file_exists_eq.
  destruct (file_existsb (strip new_path) st); [exact Hf|].
  unfold bind at 1, except_Exception, bind at 1, GridFS.get_version.
  destruct (GridFS.last_version (strip old_path) st) as [f|]; [|exact Hf].
  unfold bind at 1, GridFS.get.
  destruct (find _ (files st)) as [g|]; [|exact Hf].
  destruct (json_loads (f_data g)) as [d|]; [|exact Hf].
  unfold bind at 1, GridFS.put.
  fold (with_version st (strip new_path) (json_dumps false (from_dict d)) now).
  assert (Hf1 : fresh_ids (with_version st (strip new_path)
                             (json_dumps false (from_dict d)) now) = true)
    by (apply fresh_ids_with_version; exact Hf).
  assert (Hf2 := @fresh_ids_delete (strip old_path) _ Hf1).
  destruct (delete (strip old_path) _) as [[u|e] st2]; cbn [snd] in *.
  - unfold Collection.retarget, modify. cbn [snd].
    unfold fresh_ids in *. exact Hf2.
  - exact Hf2.
Qed.

(** The checkpoint step of [save] writes to the checkpoint collection
    only. *)
Lemma checkpoint_step_files (fe : bool) (path : string) (now : time)
    (s : store) :
  let step : M unit :=
    if fe
    then cps <- list_checkpoints path ;;
         if is_nil cps
         then create_checkpoint path now ;;; ret tt
         else ret tt
    else ret tt in
  files (snd (step s)) = files s /\ next_oid (snd (step s)) = next_oid s.
Proof.
  cbv zeta. destruct fe; [|now split].
  unfold bind. rewrite list_checkpoints_eq.
  destruct (filter _ (checkpoints s)); cbn [is_nil map]; [|now split].
  pose proof (create_checkpoint_files path now s) as C.
  destruct (create_checkpoint path now s) as [[i|e] s1]; exact C.
Qed.

Lemma fresh_ids_save_notebook (m : in_model document) (p : string)
    (now : time) (st : store) :
  m_type m = Some "notebook" ->
  fresh_ids st = true ->
  fresh_ids (snd (save m p now st)) = true.
Proof.
  intros Hty Hf. unfold save. rewrite Hty.
  destruct (m_content m) as [d|]; cbn [is_None andb negb String.eqb
    Ascii.eqb Bool.eqb]; [|exact Hf].
  unfold bind at 1. rewrite file_exists_eq.
  unfold bind at 1.
  pose proof (checkpoint_step_files (file_existsb (strip p) st) (strip p)
                now st) as Hpre.
  cbv zeta in Hpre.
  match type of Hpre with
  | files (snd (?c st)) = _ /\ _ => destruct (c st) as [[u|e] st1]
  end; cbn [snd] in Hpre; destruct Hpre as [F N];
    assert (Hf1 : fresh_ids st1 = true)
      by (rewrite (@fresh_ids_same_files st st1 F N); exact Hf);
    [|exact Hf1].
  unfold bind at 1, except_reraise_HTTPError, _save_notebook, bind at 1.
  unfold GridFS.put, ret at 1.
  fold (with_version st1 (strip p)
          (json_dumps true (check_and_sign (from_dict d) (strip p))) now).
  assert (Hf2 : fresh_ids
                  (with_version st1 (strip p)
                     (json_dumps true
                        (check_and_sign (from_dict d) (strip p))) now)
                = true)
    by (apply fresh_ids_with_version; exact Hf1).
  unfold bind.
  match goal with
  | |- context [get ?a ?b ?c ?d ?e ?s] =>
      pose proof (readonly_get a b c d e s) as R;
      destruct (get a b c d e s) as [[r|e'] s3]
  end; cbn [snd] in R; subst s3; [|exact Hf2].
  destruct (validate d) as [msg|];
    [destruct (String.eqb msg "")|destruct (m_message m) as [msg|];
     [destruct (String.eqb msg "")|]]; exact Hf2.
Qed.

End Invariant.

(** ** What rename does when it goes through *)

Section RenameFacts.

Context {H : Host}.

Lemma last_version_other_name (st : store) (name other data : string)
    (now : time) :
  other <> name ->
  GridFS.last_version name (with_version st other data now)
  = GridFS.last_version name st.
Proof.
  intros Hne. unfold GridFS.last_version, with_version. cbn [files].
  rewrite filter_app. cbn [filter]. unfold GridFS.named at 2. cbn [f_filename].
  destruct (String.eqb_spec other name); [contradiction|].
  now rewrite app_nil_r.
Qed.

Lemma stored_grows (st : store) (name other data : string) (now : time) :
  stored name st = true ->
  stored name (with_version st other data now) = true.
Proof.
  unfold stored, with_version. cbn [files]. intros Hs.
  apply mem_In. apply mem_In in Hs. rewrite map_app.
  apply in_or_app. now left.
Qed.

(** [rename] of a stored notebook onto a free name: the latest version is
    decoded, written again under the new name, and removed from the old
    one; the checkpoint documents follow. *)
Lemma rename_eq (old_path new_path : string) (now : time) (st : store)
    (f g : grid_file) (d : document) :
  strip new_path <> strip old_path ->
  strip old_path <> "" ->
  stored (strip new_path) st = false ->
  GridFS.last_version (strip old_path) st = Some f ->
  GridFS.get (f_id f) st = (Ok g, st) ->
  json_loads (f_data g) = Some d ->
  rename old_path new_path now st
  = (Ok tt,
     retargeted (strip old_path) (strip new_path)
       (without (f_id f)
          (with_version st (strip new_path) (json_dumps false d) now))).
Proof.
  intros Hne Hroot Hnew Hv Hg Hd. unfold rename.
  destruct (String.eqb_spec (strip new_path) (strip old_path));
    [contradiction|].
  unfold bind at 1. rewrite file_exists_eq. unfold file_existsb.
  rewrite strip_idem, Hnew, andb_false_r.
  unfold bind at 1, except_Exception, bind at 1, GridFS.get_version.
  rewrite Hv. unfold bind at 1. rewrite Hg, Hd.
  unfold bind at 1, GridFS.put, from_dict.
  fold (with_version st (strip new_path) (json_dumps false d) now).
  unfold delete, bind at 1. rewrite file_exists_eq. unfold file_existsb.
  rewrite strip_idem.
  apply String.eqb_neq in Hroot. rewrite Hroot. cbn [negb andb].
  assert (Hs : stored (strip old_path) st = true)
    by (apply last_version_stored; eauto).
  rewrite stored_grows by exact Hs. cbn [negb].
  unfold bind, GridFS.get_version.
  rewrite last_version_other_name by exact Hne. rewrite Hv.
  reflexivity.
Qed.

(** The records listed for the old path are listed for the new one, with
    the same [id] and [last_modified]. *)
Lemma retargeted_lists (old new : string) (st : store) (i : Info.t) :
  strip old = old -> strip new = new ->
  In i (match fst (list_checkpoints old st) with Ok l => l | Raise _ => [] end) ->
  In i (match fst (list_checkpoints new (retargeted old new st)) with
        | Ok l => l | Raise _ => [] end).
Proof.
  intros So Sn. rewrite !list_checkpoints_eq. cbn [fst].
  rewrite So, Sn. unfold retargeted. cbn [checkpoints].
  intros Hin. apply in_map_iff in Hin. destruct Hin as [c [<- Hc]].
  apply filter_In in Hc. destruct Hc as [Hin Hp].
  apply in_map_iff.
  exists (Checkpoint (c__id c) new (c_cp c) (c_id c) (c_lastModified c)).
  split; [reflexivity|]. apply filter_In. split.
  - apply in_map_iff. exists c. split; [now rewrite Hp | exact Hin].
  - unfold Collection.at_path. cbn [c_path]. apply String.eqb_refl.
Qed.

(** The old path is gone exactly when the version removed was its only
    one. *)
Lemma rename_old_path (old new data : string) (now : time) (st : store)
    (f : grid_file) :
  new <> old ->
  stored old
    (retargeted old new (without (f_id f) (with_version st new data now)))
  = existsb (fun h => GridFS.named old h && negb (f_id h =? f_id f)%nat)
            (files st).
Proof.
  intros Hne. unfold stored, retargeted, without, with_version, mem.
  cbn [files]. rewrite filter_app, map_app, existsb_app.
  assert (E : existsb (String.eqb old)
                (map f_filename
                   (filter (fun h => negb (f_id h =? f_id f)%nat)
                      [GridFile (next_oid st) new now data])) = false).
  { cbn [filter f_id]. destruct (negb _); cbn; [|reflexivity].
    destruct (String.eqb_spec old new); [congruence | reflexivity]. }
  rewrite E, orb_false_r.
  induction (files st) as [|h l IH]; [reflexivity|].
  cbn [filter existsb]. unfold GridFS.named at 1.
  rewrite (String.eqb_sym (f_filename h) old).
  destruct (negb (f_id h =? f_id f)%nat); cbn [map existsb].
  - rewrite IH, andb_true_r. reflexivity.
  - rewrite IH, andb_false_r. reflexivity.
Qed.

End RenameFacts.

(** ** When save returns *)

Section SaveReturns.

Context {H : Host}.



End SaveReturns.

(** ** A path never saved holds no blob *)

Section HistoryFacts.

Context {H : Host}.

Lemma adds_only_refl (name : string) (st : store) : adds_only name st st.
Proof. intros f Hin. now left. Qed.

Lemma adds_only_files (name : string) (st st1 st' : store) :
  files st' = files st1 -> adds_only name st st1 -> adds_only name st st'.
Proof. intros E A f Hin. rewrite E in Hin. now apply A. Qed.

Lemma adds_only_with_version (name data : string) (now : time)
    (st st1 : store) :
  adds_only name st st1 -> adds_only name st (with_version st1 name data now).
Proof.
  intros A f Hin. unfold with_version in Hin. cbn [files] in Hin.
  apply in_app_or in Hin. destruct Hin as [Hin|[<-|[]]];
    [now apply A | now right].
Qed.

Lemma adds_only_without (name : string) (i : oid) (st st1 : store) :
  adds_only name st st1 -> adds_only name st (without i st1).
Proof.
  intros A f Hin. unfold without in Hin. cbn [files] in Hin.
  apply filter_In in Hin. now apply A.
Qed.

Lemma adds_only_delete (name p : string) (st st1 : store) :
  adds_only name st st1 -> adds_only name st (snd (delete p st1)).
Proof.
  intros A. unfold delete, bind. rewrite file_exists_eq.
  destruct (file_existsb p st1); cbn [negb]; [|exact A].
  unfold GridFS.get_version.
  destruct (GridFS.last_version (strip p) st1) as [f|]; [|exact A].
  apply adds_only_without. exact A.
Qed.

Lemma adds_only_save (d : document) (p : string) (now : time) (st : store) :
  adds_only (strip p) st (snd (save (notebook_model d) p now st)).
Proof.
  unfold save, notebook_model.
  cbn [m_type m_content is_None andb negb String.eqb Ascii.eqb Bool.eqb].
  unfold bind at 1. rewrite file_exists_eq.
  unfold bind at 1.
  pose proof (checkpoint_step_files (file_existsb (strip p) st) (strip p)
                now st) as Hpre.
  cbv zeta in Hpre.
  match type of Hpre with
  | files (snd (?c st)) = _ /\ _ => destruct (c st) as [[u|e] st1]
  end; cbn [snd] in Hpre; destruct Hpre as [F N];
    assert (A1 : adds_only (strip p) st st1)
      by (intros f0 Hin0; rewrite F in Hin0; now left);
    [|exact A1].
  unfold bind at 1, except_reraise_HTTPError, _save_notebook, bind at 1.
  unfold GridFS.put, ret at 1.
  fold (with_version st1 (strip p)
          (json_dumps true (check_and_sign (from_dict d) (strip p))) now).
  assert (A2 : adds_only (strip p) st
                 (with_version st1 (strip p)
                    (json_dumps true
                       (check_and_sign (from_dict d) (strip p))) now))
    by (apply adds_only_with_version; exact A1).
  unfold bind.
  match goal with
  | |- context [get ?a ?b ?c ?d ?e ?s] =>
      pose proof (readonly_get a b c d e s) as R;
      destruct (get a b c d e s) as [[r|e'] s3]
  end; cbn [snd] in R; subst s3; [|exact A2].
  cbn [m_message].
  destruct (validate d) as [msg|]; [destruct (String.eqb msg "")|];
    exact A2.
Qed.

Lemma adds_only_rename (old_path new_path : string) (now : time)
    (st : store) :
  adds_only (strip new_path) st (snd (rename old_path new_path now st)).
Proof.
  unfold rename.
  destruct (String.eqb (strip new_path) (strip old_path));
    [apply adds_only_refl|].
  unfold bind at 1. rewrite file_exists_eq.
  destruct (file_existsb (strip new_path) st); [apply adds_only_refl|].
  unfold bind at 1, except_Exception, bind at 1, GridFS.get_version.
  destruct (GridFS.last_version (strip old_path) st) as [f|];
    [|apply adds_only_refl].
  unfold bind at 1, GridFS.get.
  destruct (find _ (files st)) as [g|]; [|apply adds_only_refl].
  destruct (json_loads (f_data g)) as [d|]; [|apply adds_only_refl].
  unfold bind at 1, GridFS.put.
  fold (with_version st (strip new_path) (json_dumps false (from_dict d)) now).
  assert (A2 : adds_only (strip new_path) st
                 (snd (delete (strip old_path)
                         (with_version st (strip new_path)
                            (json_dumps false (from_dict d)) now))))
    by (apply adds_only_delete, adds_only_with_version, adds_only_refl).
  destruct (delete (strip old_path) _) as [[u|e] st2]; cbn [snd] in *;
    exact A2.
Qed.

(** One call stores nothing under a name it does not save at. *)
Lemma after_keeps_unsaved (name : string) (r : request) (st : store) :
  saves_at name r = false ->
  stored name st = false ->
  stored name (after r st) = false.
Proof.
  intros Hr Hs.
  assert (A : exists other, other <> name /\ adds_only other st (after r st)).
  { destruct r as [d p now|o n now|p|p now]; cbn [saves_at after] in *.
    - exists (strip p). split; [now apply String.eqb_neq|].
      apply adds_only_save.
    - exists (strip n). split; [now apply String.eqb_neq|].
      apply adds_only_rename.
    - destruct (String.eqb_spec name "") as [->|Hn].
      + exists "x". split; [discriminate|].
        apply adds_only_delete, adds_only_refl.
      + exists "". split; [congruence|].
        apply adds_only_delete, adds_only_refl.
    - destruct (String.eqb_spec name "") as [->|Hn].
      + exists "x". split; [discriminate|].
        intros f0 Hin0.
        rewrite (proj1 (create_checkpoint_files p now st)) in Hin0.
        now left.
      + exists "". split; [congruence|].
        intros f0 Hin0.
        rewrite (proj1 (create_checkpoint_files p now st)) in Hin0.
        now left. }
  destruct A as [other [Hne A]].
  destruct (stored name (after r st)) eqn:S'; [|reflexivity].
  exfalso. unfold stored in *. apply mem_In in S'.
  apply in_map_iff in S'. destruct S' as [f [Hname Hin]].
  destruct (A f Hin) as [Hold|Hother]; [|congruence].
  assert (mem name (map f_filename (files st)) = true); [|congruence].
  apply mem_In. rewrite <- Hname. now apply in_map.
Qed.

(** From a store that holds nothing under [name], no history of calls
    that never save at [name] nor rename onto it stores anything there. *)
Lemma never_saved_not_stored (name : string) (rs : list request)
    (st : store) :
  forallb (fun r => negb (saves_at name r)) rs = true ->
  stored name st = false ->
  stored name (run rs st) = false.
Proof.
  revert st. induction rs as [|r rs IH]; intros st Hrs Hs; [exact Hs|].
  cbn [forallb] in Hrs. apply andb_prop in Hrs. destruct Hrs as [Hr Hrs].
  cbn [run]. apply IH; [exact Hrs|].
  apply after_keeps_unsaved; [now apply negb_true_iff | exact Hs].
Qed.

(** X23: a path off the root that no call of the history saved at or
    renamed onto does not exist after it, and [get] answers 404. *)
Lemma get_never_saved (p : string) (content : bool)
    (type format : option string) (now : time) (rs : list request) :
  strip p <> "" ->
  forallb (fun r => negb (saves_at (strip p) r)) rs = true ->
  exists_ p (run rs empty_store) = (Ok false, run rs empty_store) /\
  get p content type format now (run rs empty_store)
  = (Raise (HTTPError 404 None), run rs empty_store).
Proof.
  intros Hroot Hrs. apply String.eqb_neq in Hroot.
  assert (Hs : stored (strip p) (run rs empty_store) = false)
    by (apply never_saved_not_stored; [exact Hrs | reflexivity]).
  split.
  - rewrite exists_eq. unfold file_existsb. now rewrite Hs, Hroot.
  - rewrite get_unfold, get_rec_file by exact Hroot. now rewrite Hs.
Qed.

End HistoryFacts.

(** * More of the manager

    Properties of the same methods beyond the ones above: what the queries
    answer, what each write leaves in the store, how the calls fail and how
    they compose. *)

(** ** Queries *)

Section Queries.

Context {H : Host}.

(** X1: a path that strips to the empty string is the root: [exists] is
    true and [file_exists] false in every store, and [get] with a type
    other than [directory] raises 400 [bad type]. *)
Theorem root_is_a_directory (p : string) (content : bool)
    (type format : option string) (now : time) (st : store) :
  strip p = "" ->
  exists_ p st = (Ok true, st) /\
  file_exists p st = (Ok false, st) /\
  (is_None type = false -> is_type type "directory" = false ->
   get p content type format now st
   = (Raise (HTTPError 400 (Some "bad type")), st)).
Proof.
  intros Hroot.
  assert (Hf : file_existsb p st = false)
    by (unfold file_existsb; now rewrite Hroot).
  split; [|split].
  - rewrite exists_eq, Hf, Hroot. reflexivity.
  - rewrite file_exists_eq, Hf. reflexivity.
  - intros Hn Hd. rewrite get_unfold, get_rec_S. unfold bind.
    rewrite exists_eq, strip_idem, file_existsb_strip, Hf, Hroot.
    cbn [orb negb String.eqb]. rewrite Hn, Hd. reflexivity.
Qed.

(** X2: leading and trailing separators do not matter: every method gives
    on [p] what it gives on [p.strip('/')]. *)
Theorem separators_do_not_matter (p q : string) (m : in_model document)
    (content : bool) (type format : option string) (now : time)
    (st : store) :
  file_exists (strip p) st = file_exists p st /\
  exists_ (strip p) st = exists_ p st /\
  get (strip p) content type format now st
  = get p content type format now st /\
  list_checkpoints (strip p) st = list_checkpoints p st /\
  create_checkpoint (strip p) now st = create_checkpoint p now st /\
  save m (strip p) now st = save m p now st /\
  delete (strip p) st = delete p st /\
  rename (strip p) (strip q) now st = rename p q now st.
Proof.
  repeat split.
  - now rewrite !file_exists_eq, file_existsb_strip.
  - now rewrite !exists_eq, file_existsb_strip, strip_idem.
  - now rewrite !get_unfold, !get_rec_S, strip_idem.
  - now rewrite !list_checkpoints_eq, strip_idem.
  - unfold create_checkpoint. now rewrite strip_idem.
  - unfold save. now rewrite strip_idem.
  - unfold delete, bind.
    now rewrite !file_exists_eq, file_existsb_strip, strip_idem.
  - unfold rename. now rewrite !strip_idem.
Qed.

(** X3: the queries write nothing: whatever they answer, and however deep
    [get] goes into the listing, the store is as before. *)
Theorem queries_write_nothing (p : string) (content : bool)
    (type format : option string) (now : time) (st : store) :
  snd (file_exists p st) = st /\
  snd (exists_ p st) = st /\
  snd (list_checkpoints p st) = st /\
  snd (get p content type format now st) = st.
Proof.
  split; [apply readonly_file_exists|].
  split; [apply readonly_exists|].
  split; [reflexivity | apply readonly_get].
Qed.

(** X4: off the root, [get(content=False)] of a stored path that is asked
    for as a notebook, or ends in [.ipynb] with no type given, returns the
    bare model: name the last segment, the stripped path, no content, no
    format, type [notebook]; the [format] argument plays no part. *)
Theorem get_without_content (p : string) (type format : option string)
    (now : time) (st : store) :
  strip p <> "" ->
  stored (strip p) st = true ->
  is_type type "notebook" || (is_None type && endswith (strip p) ".ipynb")
  = true ->
  get p false type format now st
  = (Ok (Model.Make (rsplit_last (strip p)) (strip p) now now None None None
           true (Some "notebook") None),
     st).
Proof.
  intros Hroot Hs Hty. apply String.eqb_neq in Hroot.
  rewrite get_unfold, get_rec_file by exact Hroot.
  rewrite Hs, Hty. reflexivity.
Qed.

(** X5: with content, [get] decodes the version [get_version] finds, the
    one with the greatest upload date, passes it through
    [mark_trusted_cells] and returns it in format [json]; when
    [nbformat.read] refuses that version, [get] raises 400 and writes
    nothing. *)
Theorem get_reads_latest_version (p : string) (type format : option string)
    (now : time) (st : store) (f g : grid_file) :
  strip p <> "" ->
  is_type type "notebook" || (is_None type && endswith (strip p) ".ipynb")
  = true ->
  GridFS.last_version (strip p) st = Some f ->
  GridFS.get (f_id f) st = (Ok g, st) ->
  match nbformat_read (f_data g) with
  | Some nb =>
      exists m,
        get p true type format now st = (Ok m, st) /\
        Model.content m = Some (inl (mark_trusted_cells nb (strip p))) /\
        Model.format m = Some "json" /\
        Model.type m = Some "notebook" /\
        Model.path m = strip p /\
        Model.message m = validate (mark_trusted_cells nb (strip p))
  | None =>
      get p true type format now st = (Raise (HTTPError 400 None), st)
  end.
Proof.
  intros Hroot Hty Hv Hg. apply String.eqb_neq in Hroot.
  assert (Hs : stored (strip p) st = true)
    by (apply last_version_stored; eauto).
  rewrite get_unfold, get_rec_file by exact Hroot.
  rewrite Hs, Hty.
  unfold _notebook_model, bind, _read_notebook, bind, GridFS.get_version.
  rewrite Hv, Hg.
  destruct (nbformat_read (f_data g)) as [nb|]; [|reflexivity].
  unfold ret. eexists. split; [reflexivity|].
  unfold validate_notebook_model. cbn.
  destruct (validate (mark_trusted_cells nb (strip p)));
    repeat split; reflexivity.
Qed.

End Queries.

Lemma root_is_a_directory_witness :
  exists_ "//" saved_once = (Ok true, saved_once) /\
  file_exists "//" saved_once = (Ok false, saved_once) /\
  get (H := ipython_host) "//" true (Some "notebook") None 3 saved_once
  = (Raise (HTTPError 400 (Some "bad type")), saved_once).
Proof.
  destruct (@root_is_a_directory ipython_host "//" true (Some "notebook")
              None 3 saved_once eq_refl) as [E [F G]].
  split; [exact E|]. split; [exact F|]. apply G; reflexivity.
Defined.

Lemma get_without_content_witness :
  get (H := ipython_host) "/a.ipynb" false None (Some "text") 7 saved_twice
  = (Ok (Model.Make "a.ipynb" "a.ipynb" 7 7 None None None true
           (Some "notebook") None),
     saved_twice).
Proof.
  apply (@get_without_content ipython_host "/a.ipynb" None (Some "text") 7
           saved_twice);
    [discriminate | reflexivity | reflexivity].
Defined.

Lemma get_reads_latest_version_witness :
  (exists m,
     get (H := picky_host) "a.ipynb" true None None 7 saved_twice
     = (Ok m, saved_twice) /\
     Model.content m = Some (inl empty_notebook)) /\
  get (H := picky_host) "b.ipynb" true None None 7
      (Store [GridFile 0 "b.ipynb" 1 ""] [] 1)
  = (Raise (HTTPError 400 None), Store [GridFile 0 "b.ipynb" 1 ""] [] 1).
Proof.
  split.
  - destruct (@get_reads_latest_version picky_host "a.ipynb" None None 7
                saved_twice (GridFile 1 "a.ipynb" 2 empty_notebook)
                (GridFile 1 "a.ipynb" 2 empty_notebook))
      as [m [E [C _]]]; try reflexivity; try discriminate.
    exists m. split; [exact E | exact C].
  - apply (@get_reads_latest_version picky_host "b.ipynb" None None 7
             (Store [GridFile 0 "b.ipynb" 1 ""] [] 1)
             (GridFile 0 "b.ipynb" 1 "") (GridFile 0 "b.ipynb" 1 ""));
      try reflexivity; discriminate.
Defined.

(** ** The listing of the root, in general *)

Section ListingFacts.

Context {H : Host}.

Lemma mapM_Ok {A B} (f : A -> M B) (g : A -> B) (l : list A) (st : store) :
  (forall x, In x l -> f x st = (Ok (g x), st)) ->
  mapM f l st = (Ok (map g l), st).
Proof.
  induction l as [|x l IH]; intros Hf; [reflexivity|].
  cbn [mapM map]. unfold bind at 1. rewrite (Hf x (or_introl eq_refl)).
  unfold bind at 1. rewrite IH by (intros y Hy; apply Hf; now right).
  reflexivity.
Qed.

Lemma notebook_names_In (st : store) (n : string) :
  notebook_names st = true ->
  In n (map f_filename (files st)) ->
  strip n = n /\ String.eqb n "" = false /\ endswith n ".ipynb" = true.
Proof.
  unfold notebook_names. rewrite forallb_forall. intros Hall Hin.
  specialize (Hall n Hin).
  apply andb_prop in Hall. destruct Hall as [Hall He].
  apply andb_prop in Hall. destruct Hall as [Hs Hr].
  split; [now apply String.eqb_eq|]. split; [|exact He].
  now apply negb_true_iff.
Qed.

(** X6: when every stored name is a notebook's, [get] of the root with no
    type or type [directory] returns a directory model in format [json]
    whose content is one bare notebook model for each distinct stored
    name, in the order of [fs.list()], even with [content=False]. *)
Theorem root_lists_every_name (p : string) (type format : option string)
    (now : time) (st : store) :
  strip p = "" ->
  is_None type || is_type type "directory" = true ->
  notebook_names st = true ->
  get p false type format now st
  = (Ok (Model.Make "" "" now now
           (Some (inr (map (fun n =>
                              Model.Make (rsplit_last n) n now now None None
                                None true (Some "notebook") None)
                           (GridFS.distinct (map f_filename (files st))))))
           (Some "json") None true (Some "directory") None),
     st).
Proof.
  intros Hroot Hty Hnames.
  rewrite get_unfold, get_rec_S. unfold bind at 1.
  rewrite exists_eq, strip_idem, Hroot.
  cbn [String.eqb orb negb]. rewrite orb_true_r. cbn [negb].
  rewrite Hty. cbn [negb].
  unfold _dir_model, bind at 1, GridFS.list, gets.
  unfold bind at 1.
  rewrite (mapM_Ok _ (fun n => Model.Make (rsplit_last n) n now now None None
                                 None true (Some "notebook") None)).
  - reflexivity.
  - intros n Hin. apply mem_In in Hin. rewrite mem_distinct in Hin.
    destruct (notebook_names_In st n Hnames) as [Hs [Hr He]];
      [now apply mem_In|].
    rewrite (get_rec_file 498 n false None None now st)
      by (now rewrite Hs).
    rewrite Hs. unfold stored. rewrite Hin.
    cbn [is_type is_None orb andb]. rewrite He. reflexivity.
Qed.

(** A stored name that strips to the root makes [get] call itself on the
    same listing for as long as the interpreter lets it. *)
Lemma get_rec_root_name (depth : nat) :
  forall name content type format now st,
    strip name = "" ->
    mem name (map f_filename (files st)) = true ->
    exists e, get_rec depth name content type format now st = (Raise e, st).
Proof.
  induction depth as [|d IH]; intros name content type format now st Hn Hs.
  - eexists. reflexivity.
  - rewrite get_rec_S, Hn.
    unfold bind. rewrite exists_eq. change (strip "") with "".
    rewrite String.eqb_refl, orb_true_r. cbn [negb].
    destruct (negb (is_None type || is_type type "directory"));
      [eexists; reflexivity|].
    unfold _dir_model, bind, GridFS.list, gets.
    destruct (@mapM_raises _ _
                (fun n => get_rec d n content None None now)
                (GridFS.distinct (map f_filename (files st))) name st
                (fun y => readonly_get_rec d y content None None now))
      as [e E].
    + apply mem_In. rewrite mem_distinct. exact Hs.
    + apply IH; assumption.
    + rewrite E. eexists. reflexivity.
Qed.

(** X7: one stored name that does not end in [.ipynb] once stripped, the
    empty name included, makes every [get] of the root raise: the listing
    calls [get] for that name, which raises 404 or 400 or never comes
    back. *)
Theorem one_plain_name_breaks_the_listing (p name : string) (content : bool)
    (type format : option string) (now : time) (st : store) :
  strip p = "" ->
  mem name (map f_filename (files st)) = true ->
  endswith (strip name) ".ipynb" = false ->
  exists e, get p content type format now st = (Raise e, st).
Proof.
  intros Hroot Hin Hext.
  rewrite get_unfold, get_rec_S, Hroot.
  unfold bind. rewrite exists_eq. change (strip "") with "".
  rewrite String.eqb_refl, orb_true_r. cbn [negb].
  destruct (negb (is_None type || is_type type "directory"));
    [eexists; reflexivity|].
  unfold _dir_model, bind, GridFS.list, gets.
  destruct (@mapM_raises _ _
              (fun n => get_rec 499 n content None None now)
              (GridFS.distinct (map f_filename (files st))) name st
              (fun y => readonly_get_rec 499 y content None None now))
    as [e E].
  - apply mem_In. rewrite mem_distinct. exact Hin.
  - destruct (String.eqb_spec (strip name) "") as [Hn|Hn].
    + apply get_rec_root_name; assumption.
    + apply String.eqb_neq in Hn.
      rewrite (get_rec_file 498 name content None None now st Hn).
      rewrite Hext. cbn [is_type is_None orb andb].
      destruct (stored (strip name) st); eexists; reflexivity.
  - rewrite E. eexists. reflexivity.
Qed.

End ListingFacts.

Lemma root_lists_every_name_witness :
  get (H := ipython_host) "/" false (Some "directory") None 9 saved_twice
  = (Ok (Model.Make "" "" 9 9
           (Some (inr [Model.Make "a.ipynb" "a.ipynb" 9 9 None None None
                         true (Some "notebook") None]))
           (Some "json") None true (Some "directory") None),
     saved_twice).
Proof.
  apply (@root_lists_every_name ipython_host "/" (Some "directory") None 9
           saved_twice);
    reflexivity.
Defined.

Lemma one_plain_name_breaks_the_listing_witness :
  exists e,
    get (H := ipython_host) "" false None None 9
        (Store [GridFile 0 "a.ipynb" 1 empty_notebook;
                GridFile 1 "notes" 2 empty_notebook] [] 2)
    = (Raise e,
       Store [GridFile 0 "a.ipynb" 1 empty_notebook;
              GridFile 1 "notes" 2 empty_notebook] [] 2).
Proof.
  apply (@one_plain_name_breaks_the_listing ipython_host "" "notes" false
           None None 9);
    reflexivity.
Defined.

(** ** What save writes and returns *)

Section SaveEffects.

Context {H : Host}.

(** The first checkpoint of a path: a successful [create_checkpoint] on a
    path with no checkpoint document inserts the document numbered [0] for
    the latest version. *)
Lemma create_checkpoint_first (p : string) (now : time) (st st' : store)
    (i : Info.t) :
  filter (Collection.at_path (strip p)) (checkpoints st) = [] ->
  create_checkpoint p now st = (Ok i, st') ->
  exists f,
    GridFS.last_version (strip p) st = Some f /\
    st' = Store (files st)
            (checkpoints st ++
             [Checkpoint (f_id f) (strip p) (str 0) (f_id f) (bson_date now)])
            (next_oid st).
Proof.
  intros Hnone. unfold create_checkpoint, bind, GridFS.get_version.
  destruct (GridFS.last_version (strip p) st) as [f|]; [|discriminate].
  unfold Collection.count, gets. rewrite Hnone. cbn [List.length].
  unfold Collection.upsert.
  destruct (find _ (checkpoints st)) as [c|] eqn:F.
  - exfalso. apply find_some in F. destruct F as [Hin Hm].
    assert (Hf : In c (filter (Collection.at_path (strip p))
                         (checkpoints st))).
    { apply filter_In. split; [exact Hin|].
      unfold Collection.matches in Hm.
      repeat (apply andb_prop in Hm; destruct Hm as [Hm _]). exact Hm. }
    rewrite Hnone in Hf. destruct Hf.
  - destruct (existsb _ (checkpoints st)); [discriminate|].
    intros E. inversion E; subst. exists f. split; reflexivity.
Qed.

(** A successful save of a notebook, step by step: the checkpoint written
    (or not), the version written, and the model returned. *)
Lemma save_notebook_inv (m : in_model document) (d : document) (p : string)
    (now : time) (st st' : store) (r : Model.t document) :
  m_type m = Some "notebook" ->
  m_content m = Some d ->
  save m p now st = (Ok r, st') ->
  files st' = files st ++
              [GridFile (next_oid st) (strip p) now (stored_text d (strip p))]
  /\ next_oid st' = S (next_oid st)
  /\ (if file_existsb p st &&
         is_nil (filter (Collection.at_path (strip p)) (checkpoints st))
      then exists f,
             GridFS.last_version (strip p) st = Some f /\
             checkpoints st' = checkpoints st ++
               [Checkpoint (f_id f) (strip p) (str 0) (f_id f)
                  (bson_date now)]
      else checkpoints st' = checkpoints st)
  /\ strip p <> "" /\ endswith (strip p) ".ipynb" = true
  /\ exists msg : option string,
       r = Model.Make (rsplit_last (strip p)) (strip p) now now None None
             None true (Some "notebook") msg.
Proof.
  intros Hty Hc. unfold save. rewrite Hty, Hc.
  cbn [is_None andb]. intros E.
  apply bind_Ok in E. destruct E as [fe [s0 [E0 E]]].
  rewrite file_exists_eq, file_existsb_strip in E0.
  inversion E0; subst fe s0; clear E0.
  apply bind_Ok in E. destruct E as [u1 [st1 [E1 E]]].
  apply bind_Ok in E. destruct E as [u2 [st2 [E2 E]]].
  apply bind_Ok in E. destruct E as [r0 [st3 [E3 E]]].
  assert (st3 = st2) by (eapply readonly_run; [apply readonly_get|eauto]).
  subst st3.
  assert (Hst2 : st2 = with_version st1 (strip p) (stored_text d (strip p)) now).
  { unfold except_reraise_HTTPError in E2. cbn in E2.
    inversion E2. reflexivity. }
  assert (Hpre : files st1 = files st /\ next_oid st1 = next_oid st /\
                 (if file_existsb p st &&
                     is_nil (filter (Collection.at_path (strip p))
                               (checkpoints st))
                  then exists f,
                         GridFS.last_version (strip p) st = Some f /\
                         checkpoints st1 = checkpoints st ++
                           [Checkpoint (f_id f) (strip p) (str 0) (f_id f)
                              (bson_date now)]
                  else checkpoints st1 = checkpoints st)).
  { destruct (file_existsb p st); cbn [andb].
    - apply bind_Ok in E1. destruct E1 as [cps [s1 [L E1]]].
      rewrite list_checkpoints_eq in L. inversion L; subst cps s1; clear L.
      rewrite strip_idem in E1.
      destruct (filter _ (checkpoints st)) as [|c0 cs] eqn:F; cbn in E1 |- *.
      + apply bind_Ok in E1. destruct E1 as [i [s1 [C E1]]].
        inversion E1; subst s1.
        apply create_checkpoint_first in C;
          [|rewrite strip_idem; exact F].
        rewrite strip_idem in C. destruct C as [f [Hv ->]].
        cbn [files next_oid checkpoints]. repeat split. eauto.
      + inversion E1; subst st1. repeat split.
    - inversion E1; subst st1. repeat split. }
  destruct Hpre as [P1 [P2 P3]].
  assert (Hs : stored (strip p) st2 = true)
    by (rewrite Hst2; apply stored_with_version).
  assert (Hroot : String.eqb (strip p) "" = false).
  { destruct (String.eqb_spec (strip p) "") as [Er|_]; [|reflexivity].
    exfalso. rewrite Er in E3, Hs. rewrite get_unfold in E3.
    destruct (get_rec_root_blob (S 499) false None None now st2 Hs)
      as [e Hr].
    congruence. }
  rewrite get_unfold, get_rec_file in E3
    by (rewrite strip_idem; exact Hroot).
  rewrite strip_idem, Hs in E3. cbn [is_type is_None orb andb] in E3.
  destruct (endswith (strip p) ".ipynb") eqn:Hext; [|discriminate].
  unfold _notebook_model, ret in E3. inversion E3; subst r0; clear E3.
  assert (Hr : st' = st2 /\
               exists msg : option string,
                 r = Model.Make (rsplit_last (strip p)) (strip p) now now
                       None None None true (Some "notebook") msg).
  { destruct (if String.eqb "notebook" "notebook" then _ else _) as [msg|];
      [destruct (String.eqb msg "")|]; inversion E; split;
      try reflexivity; eexists; reflexivity. }
  destruct Hr as [-> Hr]. rewrite Hst2. unfold with_version.
  cbn [files next_oid checkpoints]. rewrite P1, P2.
  split; [reflexivity|]. split; [reflexivity|]. split; [exact P3|].
  split; [now apply String.eqb_neq|]. split; [reflexivity | exact Hr].
Qed.

(** X8: a successful save of a notebook appends exactly one version, under
    the stripped path, dated by the clock and holding the text of the
    signed document; no stored version is changed or removed. *)
Theorem save_appends_one_version (m : in_model document) (d : document)
    (p : string) (now : time) (st st' : store) (r : Model.t document) :
  m_type m = Some "notebook" ->
  m_content m = Some d ->
  save m p now st = (Ok r, st') ->
  files st' = files st ++
              [GridFile (next_oid st) (strip p) now
                 (json_dumps true (check_and_sign d (strip p)))] /\
  next_oid st' = S (next_oid st).
Proof.
  intros Hty Hc Hsave.
  destruct (save_notebook_inv m p now st Hty Hc Hsave) as [F [N _]].
  split; assumption.
Qed.

(** X9: the checkpoint [save] creates on its own: a successful save of a
    notebook on a stored path with no checkpoint document adds exactly the
    document numbered [0], dated by the clock cut to the millisecond, for
    the version that was the latest before the save; any other successful
    save leaves the checkpoint collection as it was. *)
Theorem save_checkpoints_the_old_version (m : in_model document)
    (d : document) (p : string) (now : time) (st st' : store)
    (r : Model.t document) :
  m_type m = Some "notebook" ->
  m_content m = Some d ->
  save m p now st = (Ok r, st') ->
  if file_existsb p st && (checkpoint_count p st =? 0)%nat
  then exists f,
         GridFS.last_version (strip p) st = Some f /\
         checkpoints st' = checkpoints st ++
           [Checkpoint (f_id f) (strip p) "0" (f_id f) (bson_date now)]
  else checkpoints st' = checkpoints st.
Proof.
  intros Hty Hc Hsave.
  destruct (save_notebook_inv m p now st Hty Hc Hsave)
    as [_ [_ [C _]]].
  unfold checkpoint_count.
  destruct (filter _ (checkpoints st)); exact C.
Qed.

(** X10: what a successful save of a notebook returns is the bare model of
    the path: no content, no format, type [notebook], the stripped path
    and its last segment as the name; and it returns only for a path off
    the root that ends in [.ipynb]. *)
Theorem save_returns_bare_model (m : in_model document) (d : document)
    (p : string) (now : time) (st st' : store) (r : Model.t document) :
  m_type m = Some "notebook" ->
  m_content m = Some d ->
  save m p now st = (Ok r, st') ->
  strip p <> "" /\ endswith (strip p) ".ipynb" = true /\
  Model.content r = None /\ Model.format r = None /\
  Model.type r = Some "notebook" /\
  Model.path r = strip p /\ Model.name r = rsplit_last (strip p) /\
  Model.last_modified r = now /\ Model.writable r = true.
Proof.
  intros Hty Hc Hsave.
  destruct (save_notebook_inv m p now st Hty Hc Hsave)
    as [_ [_ [_ [Hroot [Hext [msg ->]]]]]].
  repeat split; assumption.
Qed.

End SaveEffects.

Lemma save_appends_one_version_witness :
  files saved_twice
  = files saved_once ++ [GridFile 1 "a.ipynb" 2 empty_notebook] /\
  next_oid saved_twice = 2.
Proof.
  apply (@save_appends_one_version ipython_host
           (notebook_model (H := ipython_host) empty_notebook)
           empty_notebook "a.ipynb" 2 saved_once saved_twice
           (Model.Make "a.ipynb" "a.ipynb" 2 2 None None None true
              (Some "notebook") None));
    reflexivity.
Defined.

Lemma save_checkpoints_the_old_version_witness :
  exists f,
    GridFS.last_version "a.ipynb" saved_once = Some f /\
    checkpoints saved_twice
    = checkpoints saved_once ++
      [Checkpoint (f_id f) "a.ipynb" "0" (f_id f) (bson_date 2)].
Proof.
  apply (@save_checkpoints_the_old_version ipython_host
           (notebook_model (H := ipython_host) empty_notebook)
           empty_notebook "a.ipynb" 2 saved_once saved_twice
           (Model.Make "a.ipynb" "a.ipynb" 2 2 None None None true
              (Some "notebook") None));
    reflexivity.
Defined.

Lemma save_returns_bare_model_witness :
  exists r,
    save (H := ipython_host)
         (notebook_model (H := ipython_host) empty_notebook)
         "/a.ipynb" 2 saved_once
    = (Ok r, saved_twice) /\
    Model.content r = None /\ Model.type r = Some "notebook" /\
    Model.path r = "a.ipynb" /\ Model.name r = "a.ipynb".
Proof.
  exists (Model.Make "a.ipynb" "a.ipynb" 2 2 None None None true
            (Some "notebook") None).
  split; [reflexivity|].
  destruct (@save_returns_bare_model ipython_host
              (notebook_model (H := ipython_host) empty_notebook)
              empty_notebook "/a.ipynb" 2 saved_once saved_twice
              (Model.Make "a.ipynb" "a.ipynb" 2 2 None None None true
                 (Some "notebook") None)
              eq_refl eq_refl eq_refl)
    as [_ [_ [C [_ [T [P [N _]]]]]]].
  split; [exact C|]. split; [exact T|]. split; [exact P | exact N].
Defined.

(** ** How save fails *)

Section SaveFailures.

Context {H : Host}.

(** X11: a model with no [type], or with no [content] and a type other
    than [directory], is refused with 400 before the store is read or
    written. *)
Theorem save_refuses_incomplete_model (m : in_model document) (p : string)
    (now : time) (st : store) :
  m_type m = None \/
  (m_content m = None /\ m_type m <> Some "directory") ->
  save m p now st = (Raise (HTTPError 400 None), st).
Proof.
  intros [Hty|[Hc Hty]]; unfold save.
  - rewrite Hty. reflexivity.
  - rewrite Hc. destruct (m_type m) as [ty|]; [|reflexivity].
    destruct (String.eqb_spec ty "directory") as [->|_];
      [congruence | reflexivity].
Qed.

(** X12: a model of a type other than [notebook], [file] and [directory]
    makes [save] raise, and no blob version is written; the checkpoint
    step has run by then. *)
Theorem save_unhandled_type (m : in_model document) (ty : string)
    (p : string) (now : time) (st : store) :
  m_type m = Some ty ->
  String.eqb ty "notebook" = false ->
  String.eqb ty "file" = false ->
  String.eqb ty "directory" = false ->
  exists e st',
    save m p now st = (Raise e, st') /\
    files st' = files st /\ next_oid st' = next_oid st /\
    (file_existsb p st = false -> e = HTTPError 400 None /\ st' = st).
Proof.
  intros Hty Hn Hf Hd. unfold save. rewrite Hty, Hn, Hf, Hd.
  destruct (m_content m) as [c|]; cbn [is_None andb negb];
    [|do 2 eexists; repeat split; reflexivity].
  unfold bind at 1. rewrite file_exists_eq, file_existsb_strip.
  unfold bind at 1.
  pose proof (checkpoint_step_files (file_existsb p st) (strip p) now st)
    as Hpre.
  cbv zeta in Hpre.
  destruct (file_existsb p st) eqn:Hfe.
  - match type of Hpre with
    | files (snd (?c st)) = _ /\ _ => destruct (c st) as [[u|e] st1]
    end; cbn [snd] in Hpre; destruct Hpre as [F N].
    + unfold bind at 1, except_reraise_HTTPError, raise.
      do 2 eexists. split; [reflexivity|].
      split; [exact F|]. split; [exact N|]. discriminate.
    + do 2 eexists. split; [reflexivity|].
      split; [exact F|]. split; [exact N|]. discriminate.
  - unfold ret at 1, bind at 1, except_reraise_HTTPError, raise.
    do 2 eexists. split; [reflexivity|]. repeat split.
Qed.

(** X13: a notebook saved for the first time at a path off the root that
    does not end in [.ipynb] is written all the same: [save] raises 400
    [bad type] from its closing [get], and the store holds the new
    version. *)
Theorem save_plain_path_writes_then_raises (d : document) (p : string)
    (now : time) (st : store) :
  strip p <> "" ->
  endswith (strip p) ".ipynb" = false ->
  stored (strip p) st = false ->
  save (notebook_model d) p now st
  = (Raise (HTTPError 400 (Some "bad type")),
     with_version st (strip p)
       (json_dumps true (check_and_sign d (strip p))) now).
Proof.
  intros Hroot Hext Hs. apply String.eqb_neq in Hroot.
  unfold save, notebook_model.
  cbn [m_type m_content is_None andb]. unfold bind at 1.
  rewrite file_exists_eq, file_existsb_strip. unfold file_existsb.
  rewrite Hs, andb_false_r. unfold bind at 1. unfold ret at 1.
  unfold bind at 1. cbn [String.eqb Ascii.eqb Bool.eqb].
  unfold except_reraise_HTTPError, _save_notebook, bind at 1, GridFS.put.
  unfold ret at 1. unfold from_dict.
  fold (with_version st (strip p)
          (json_dumps true (check_and_sign d (strip p))) now).
  unfold bind at 1.
  rewrite get_unfold, get_rec_file by (rewrite strip_idem; exact Hroot).
  rewrite strip_idem, stored_with_version.
  cbn [is_type is_None orb andb]. rewrite Hext. reflexivity.
Qed.

End SaveFailures.

Lemma save_refuses_incomplete_model_witness :
  save (H := ipython_host) (InModel None (Some empty_notebook) None None)
       "a.ipynb" 3 saved_once
  = (Raise (HTTPError 400 None), saved_once) /\
  save (H := ipython_host) (InModel (Some "notebook") None None None)
       "a.ipynb" 3 saved_once
  = (Raise (HTTPError 400 None), saved_once).
Proof.
  split.
  - apply (@save_refuses_incomplete_model ipython_host). left. reflexivity.
  - apply (@save_refuses_incomplete_model ipython_host). right.
    split; [reflexivity | discriminate].
Defined.

Lemma save_unhandled_type_witness :
  exists e st',
    save (H := ipython_host)
         (InModel (Some "image") (Some empty_notebook) None None)
         "a.ipynb" 3 saved_once
    = (Raise e, st') /\
    files st' = files saved_once /\ next_oid st' = next_oid saved_once /\
    (file_existsb "a.ipynb" saved_once = false ->
     e = HTTPError 400 None /\ st' = saved_once).
Proof.
  apply (@save_unhandled_type ipython_host
           (InModel (Some "image") (Some empty_notebook) None None) "image");
    reflexivity.
Defined.

Lemma save_plain_path_writes_then_raises_witness :
  save (H := ipython_host) (notebook_model (H := ipython_host) empty_notebook)
       "notes" 1 empty_store
  = (Raise (HTTPError 400 (Some "bad type")),
     Store [GridFile 0 "notes" 1 empty_notebook] [] 1).
Proof.
  apply (@save_plain_path_writes_then_raises ipython_host empty_notebook
           "notes" 1 empty_store);
    [discriminate | reflexivity | reflexivity].
Defined.

(** ** Checkpoints *)

(** X14: [create_checkpoint] reads the bucket and writes none of it; it
    only ever adds to the checkpoint collection; and when it raises, the
    store is exactly as before. *)
Theorem create_checkpoint_only_adds (p : string) (now : time) (st : store) :
  files (snd (create_checkpoint p now st)) = files st /\
  next_oid (snd (create_checkpoint p now st)) = next_oid st /\
  (forall c, In c (checkpoints st) ->
             In c (checkpoints (snd (create_checkpoint p now st)))) /\
  (forall e st', create_checkpoint p now st = (Raise e, st') -> st' = st).
Proof.
  unfold create_checkpoint, bind, GridFS.get_version.
  destruct (GridFS.last_version (strip p) st) as [f|].
  - unfold Collection.count, gets, Collection.upsert.
    destruct (find _ (checkpoints st)) as [c|].
    + destruct (c__id c =? f_id f)%nat; cbn [snd];
        (split; [reflexivity|]; split; [reflexivity|];
         split; [auto|]; intros e st' E; inversion E; reflexivity).
    + destruct (existsb _ (checkpoints st)); cbn [snd files next_oid
        checkpoints];
        (split; [reflexivity|]; split; [reflexivity|]; split;
         [intros c Hin; try apply in_or_app; auto
         |intros e st' E; inversion E; reflexivity]).
  - cbn [snd]. split; [reflexivity|]. split; [reflexivity|].
    split; [auto|]. intros e st' E. inversion E. reflexivity.
Qed.

(** X15: a checkpoint that was created is listed, with its date as the
    collection keeps it: after a successful [create_checkpoint(p)] the pair
    returned has for [id] the count of the path's documents before the call
    and for [last_modified] the clock's reading to the microsecond, while
    [list_checkpoints(p)] holds the pair of that [id] with the reading cut to
    the millisecond (the two pairs are the same only when the reading is a
    whole number of milliseconds), and it still holds every pair it held
    before. *)
Theorem created_checkpoint_is_listed (p : string) (now : time)
    (st st' : store) (i : Info.t) :
  create_checkpoint p now st = (Ok i, st') ->
  i = Info.Make (str (checkpoint_count p st)) now /\
  exists before l,
    list_checkpoints p st = (Ok before, st) /\
    list_checkpoints p st' = (Ok l, st') /\
    In (Info.Make (str (checkpoint_count p st)) (bson_date now)) l /\
    (bson_date now = now -> In i l) /\
    (forall j, In j before -> In j l).
Proof.
  rewrite !list_checkpoints_eq.
  unfold create_checkpoint, bind, GridFS.get_version.
  destruct (GridFS.last_version (strip p) st) as [f|]; [|discriminate].
  unfold Collection.count, gets, Collection.upsert.
  fold (checkpoint_count p st).
  destruct (find _ (checkpoints st)) as [c|] eqn:F.
  - destruct (c__id c =? f_id f)%nat; [|discriminate].
    intros E. inversion E; subst. split; [reflexivity|].
    do 2 eexists. split; [reflexivity|]. split; [reflexivity|].
    assert (Hin' : In (Info.Make (str (checkpoint_count p st'))
                         (bson_date now))
                     (map (fun c => Info.Make (c_cp c) (c_lastModified c))
                        (filter (Collection.at_path (strip p))
                           (checkpoints st')))).
    { apply find_some in F. destruct F as [Hin Hm].
      unfold Collection.matches in Hm.
      apply andb_prop in Hm. destruct Hm as [Hm Ht].
      apply andb_prop in Hm. destruct Hm as [Hm _].
      apply andb_prop in Hm. destruct Hm as [Hp Hcp].
      apply String.eqb_eq in Hcp. apply Nat.eqb_eq in Ht.
      apply in_map_iff. exists c. split.
      - now rewrite Hcp, Ht.
      - apply filter_In. split; assumption. }
    split; [exact Hin'|]. split; [|auto].
    intros Hw. rewrite Hw in Hin'. exact Hin'.
  - destruct (existsb _ (checkpoints st)); [discriminate|].
    intros E. inversion E; subst. split; [reflexivity|].
    do 2 eexists. split; [reflexivity|]. split; [reflexivity|].
    cbn [checkpoints]. rewrite filter_app, map_app.
    assert (Hin' : In (Info.Make (str (checkpoint_count p st))
                         (bson_date now))
                     (map (fun c => Info.Make (c_cp c) (c_lastModified c))
                        (filter (Collection.at_path (strip p))
                           (checkpoints st)) ++
                      map (fun c => Info.Make (c_cp c) (c_lastModified c))
                        (filter (Collection.at_path (strip p))
                           [Checkpoint (f_id f) (strip p)
                              (str (checkpoint_count p st)) (f_id f)
                              (bson_date now)]))).
    { cbn [filter]. unfold Collection.at_path at 2. cbn [c_path].
      rewrite String.eqb_refl. cbn [map c_cp c_lastModified].
      apply in_or_app; right; now left. }
    split; [exact Hin'|].
    split; [|intros j Hj; apply in_or_app; now left].
    intros Hw. rewrite Hw in Hin' at 1. exact Hin'.
Qed.

Lemma created_checkpoint_is_listed_witness :
  Info.Make "1" 2345
  = Info.Make (str (checkpoint_count "a.ipynb" saved_twice)) 2345
  /\ exists before l,
       list_checkpoints "a.ipynb" saved_twice = (Ok before, saved_twice) /\
       list_checkpoints "a.ipynb"
         (snd (create_checkpoint "a.ipynb" 2345 saved_twice))
       = (Ok l, snd (create_checkpoint "a.ipynb" 2345 saved_twice)) /\
       In (Info.Make (str (checkpoint_count "a.ipynb" saved_twice))
             (bson_date 2345)) l /\
       (bson_date 2345 = 2345 -> In (Info.Make "1" 2345) l) /\
       (forall j, In j before -> In j l).
Proof.
  apply (@created_checkpoint_is_listed "a.ipynb" 2345 saved_twice
           (snd (create_checkpoint "a.ipynb" 2345 saved_twice))
           (Info.Make "1" 2345)).
  reflexivity.
Defined.

(** ** delete *)

(** X16: [delete] never raises; it leaves the checkpoint collection as it
    was, so the checkpoint documents of a deleted path stay behind; and it
    adds nothing to the bucket. *)
Theorem delete_returns_and_keeps_checkpoints (p : string) (st : store) :
  fst (delete p st) = Ok tt /\
  checkpoints (snd (delete p st)) = checkpoints st /\
  next_oid (snd (delete p st)) = next_oid st /\
  (forall f, In f (files (snd (delete p st))) -> In f (files st)).
Proof.
  unfold delete, bind. rewrite file_exists_eq.
  destruct (file_existsb p st) eqn:Hfe; cbn [negb];
    [|repeat split; auto].
  unfold file_existsb in Hfe. apply andb_prop in Hfe.
  destruct Hfe as [_ Hs]. apply last_version_stored in Hs.
  destruct Hs as [f Hv]. unfold GridFS.get_version. rewrite Hv.
  cbn. split; [reflexivity|]. split; [reflexivity|].
  split; [reflexivity|].
  intros g Hg. apply filter_In in Hg. apply Hg.
Qed.

Lemma newest_single (f : grid_file) : GridFS.newest None [f] = Some f.
Proof. reflexivity. Qed.

(** The only file of a name is gone with its identifier. *)
Lemma stored_without_only (name : string) (st : store) (f : grid_file) :
  filter (GridFS.named name) (files st) = [f] ->
  stored name (without (f_id f) st) = false.
Proof.
  intros Hone. destruct (stored name (without (f_id f) st)) eqn:S;
    [|reflexivity].
  exfalso. unfold stored in S. apply mem_In in S.
  apply in_map_iff in S. destruct S as [g [Hname Hin]].
  unfold without in Hin. cbn [files] in Hin.
  apply filter_In in Hin. destruct Hin as [Hin Hid].
  assert (Hg : In g (filter (GridFS.named name) (files st))).
  { apply filter_In. split; [exact Hin|].
    unfold GridFS.named. rewrite Hname. apply String.eqb_refl. }
  rewrite Hone in Hg. destruct Hg as [<-|[]].
  rewrite Nat.eqb_refl in Hid. discriminate.
Qed.

Section DeleteFacts.

Context {H : Host}.

(** X17: [delete] of a path that holds exactly one version removes it:
    afterwards the path does not exist and [get] raises 404. *)
Theorem delete_only_version (p : string) (content : bool)
    (type format : option string) (now : time) (st : store)
    (f : grid_file) :
  strip p <> "" ->
  filter (GridFS.named (strip p)) (files st) = [f] ->
  delete p st = (Ok tt, without (f_id f) st) /\
  exists_ p (without (f_id f) st) = (Ok false, without (f_id f) st) /\
  get p content type format now (without (f_id f) st)
  = (Raise (HTTPError 404 None), without (f_id f) st).
Proof.
  intros Hroot Hone. apply String.eqb_neq in Hroot.
  assert (Hv : GridFS.last_version (strip p) st = Some f)
    by (unfold GridFS.last_version; now rewrite Hone).
  assert (Hs : stored (strip p) st = true)
    by (apply last_version_stored; eauto).
  assert (Hgone := stored_without_only (strip p) st Hone).
  split; [|split].
  - unfold delete, bind. rewrite file_exists_eq. unfold file_existsb.
    rewrite Hroot, Hs. cbn [negb andb].
    unfold GridFS.get_version. rewrite Hv. reflexivity.
  - rewrite exists_eq. unfold file_existsb. now rewrite Hgone, Hroot.
  - rewrite get_unfold, get_rec_file by exact Hroot. now rewrite Hgone.
Qed.

(** X18: [delete] right after a successful save takes the save's write
    back: the bucket holds the files it held before the save.  The
    checkpoint the save may have created stays. *)
Theorem delete_undoes_save (m : in_model document) (d : document)
    (p : string) (now : time) (st st1 : store) (r : Model.t document) :
  m_type m = Some "notebook" ->
  m_content m = Some d ->
  fresh_ids st = true ->
  older (strip p) now st = true ->
  save m p now st = (Ok r, st1) ->
  exists st2,
    delete p st1 = (Ok tt, st2) /\
    files st2 = files st /\
    checkpoints st2 = checkpoints st1.
Proof.
  intros Hty Hc Hfresh Hold Hsave.
  destruct (save_notebook_inv m p now st Hty Hc Hsave)
    as [F [N [_ [Hroot _]]]].
  apply String.eqb_neq in Hroot.
  set (new := GridFile (next_oid st) (strip p) now
                (stored_text d (strip p))) in *.
  assert (Hv : GridFS.last_version (strip p) st1 = Some new).
  { assert (E := @last_version_with_version st (strip p)
                    (stored_text d (strip p)) now Hold).
    unfold GridFS.last_version, with_version in *. cbn [files] in E.
    now rewrite F. }
  assert (Hs : stored (strip p) st1 = true)
    by (apply last_version_stored; eauto).
  exists (without (next_oid st) st1).
  split; [|split].
  - unfold delete, bind. rewrite file_exists_eq. unfold file_existsb.
    rewrite Hroot, Hs. cbn [negb andb].
    unfold GridFS.get_version. rewrite Hv. reflexivity.
  - unfold without. cbn [files]. rewrite F, filter_app.
    cbn [filter f_id new]. rewrite Nat.eqb_refl. cbn [negb].
    rewrite app_nil_r.
    unfold fresh_ids in Hfresh. rewrite forallb_forall in Hfresh.
    clear - Hfresh. induction (files st) as [|x l IH]; [reflexivity|].
    cbn [filter].
    assert (Hx : (f_id x <? next_oid st)%nat = true)
      by (apply Hfresh; now left).
    apply Nat.ltb_lt in Hx.
    destruct (Nat.eqb_spec (f_id x) (next_oid st)); [lia|].
    cbn [negb]. f_equal. apply IH. intros y Hy. apply Hfresh. now right.
  - reflexivity.
Qed.

End DeleteFacts.

Lemma delete_only_version_witness :
  delete "a.ipynb" saved_once = (Ok tt, without 0 saved_once) /\
  exists_ "a.ipynb" (without 0 saved_once)
  = (Ok false, without 0 saved_once) /\
  get (H := ipython_host) "a.ipynb" true None None 5 (without 0 saved_once)
  = (Raise (HTTPError 404 None), without 0 saved_once).
Proof.
  apply (@delete_only_version ipython_host "a.ipynb" true None None 5
           saved_once (GridFile 0 "a.ipynb" 1 empty_notebook));
    [discriminate | reflexivity].
Defined.

Lemma delete_undoes_save_witness :
  exists st2,
    delete "a.ipynb" saved_twice = (Ok tt, st2) /\
    files st2 = files saved_once /\
    checkpoints st2 = checkpoints saved_twice.
Proof.
  apply (@delete_undoes_save ipython_host
           (notebook_model (H := ipython_host) empty_notebook)
           empty_notebook "a.ipynb" 2 saved_once saved_twice
           (Model.Make "a.ipynb" "a.ipynb" 2 2 None None None true
              (Some "notebook") None));
    reflexivity.
Defined.

(** ** rename, in general *)

Section RenameEffects.

Context {H : Host}.

Lemma delete_frame (p : string) (st : store) :
  checkpoints (snd (delete p st)) = checkpoints st.
Proof.
  unfold delete, bind. rewrite file_exists_eq.
  destruct (file_existsb p st); cbn [negb]; [|reflexivity].
  unfold GridFS.get_version.
  destruct (GridFS.last_version (strip p) st); reflexivity.
Qed.

(** A [rename] that returns between two different paths has moved the
    checkpoint documents of a store with the checkpoints it started
    from. *)
Lemma rename_Ok_inv (old_path new_path : string) (now : time)
    (st st' : store) :
  strip new_path <> strip old_path ->
  rename old_path new_path now st = (Ok tt, st') ->
  exists st2,
    checkpoints st2 = checkpoints st /\
    st' = retargeted (strip old_path) (strip new_path) st2.
Proof.
  intros Hne. unfold rename.
  destruct (String.eqb_spec (strip new_path) (strip old_path));
    [contradiction|].
  intros E. apply bind_Ok in E. destruct E as [fe [s0 [E0 E]]].
  rewrite file_exists_eq in E0. inversion E0; subst fe s0; clear E0.
  destruct (file_existsb (strip new_path) st); [discriminate|].
  apply bind_Ok in E. destruct E as [u [st2 [E2 E]]].
  exists st2. split; [|inversion E; reflexivity].
  unfold except_Exception in E2.
  match type of E2 with
  | match ?body st with _ => _ end = _ =>
      destruct (body st) as [[u'|e] s2] eqn:B; [|discriminate]
  end.
  inversion E2; subst u' s2; clear E2.
  apply bind_Ok in B. destruct B as [f [s1 [B1 B]]].
  assert (s1 = st)
    by (eapply readonly_run; [apply readonly_get_version|eauto]).
  subst s1.
  apply bind_Ok in B. destruct B as [g [s1 [B2 B]]].
  assert (s1 = st) by (eapply readonly_run; [apply readonly_fs_get|eauto]).
  subst s1.
  destruct (json_loads (f_data g)) as [d|]; [|discriminate].
  apply bind_Ok in B. destruct B as [i [s1 [B3 B]]].
  unfold GridFS.put in B3. inversion B3; subst i s1; clear B3.
  pose proof (delete_frame (strip old_path)
                (Store (files st ++
                        [GridFile (next_oid st) (strip new_path) now
                           (json_dumps false (from_dict d))])
                       (checkpoints st) (S (next_oid st)))) as D.
  rewrite B in D. exact D.
Qed.

Lemma retargeted_count (old new : string) (l : list checkpoint) :
  new <> old ->
  let moved :=
    map (fun c => if Collection.at_path old c
                  then Checkpoint (c__id c) new (c_cp c) (c_id c)
                                  (c_lastModified c)
                  else c) l in
  filter (Collection.at_path old) moved = [] /\
  List.length (filter (Collection.at_path new) moved)
  = List.length (filter (Collection.at_path old) l) +
    List.length (filter (Collection.at_path new) l).
Proof.
  intros Hne. cbv zeta. induction l as [|c l [IH1 IH2]]; [now split|].
  cbn [map filter].
  destruct (Collection.at_path old c) eqn:Ho.
  - assert (A1 : Collection.at_path old
                   (Checkpoint (c__id c) new (c_cp c) (c_id c)
                      (c_lastModified c)) = false)
      by (unfold Collection.at_path; cbn [c_path];
          now apply String.eqb_neq).
    assert (A2 : Collection.at_path new
                   (Checkpoint (c__id c) new (c_cp c) (c_id c)
                      (c_lastModified c)) = true)
      by (unfold Collection.at_path; cbn [c_path]; apply String.eqb_refl).
    rewrite A1, A2.
    assert (Hn : Collection.at_path new c = false).
    { unfold Collection.at_path in *. apply String.eqb_eq in Ho.
      rewrite Ho. apply String.eqb_neq. congruence. }
    rewrite Hn. cbn [List.length]. split; [exact IH1 | now rewrite IH2].
  - rewrite Ho. split; [exact IH1|].
    destruct (Collection.at_path new c); cbn [List.length]; lia.
Qed.

(** What the new path lists after the move: the records of the documents
    that were at either path, in the collection's order. *)
Lemma retargeted_infos (old new : string) (l : list checkpoint) :
  map (fun c => Info.Make (c_cp c) (c_lastModified c))
    (filter (Collection.at_path new)
       (map (fun c => if Collection.at_path old c
                      then Checkpoint (c__id c) new (c_cp c) (c_id c)
                                      (c_lastModified c)
                      else c) l))
  = map (fun c => Info.Make (c_cp c) (c_lastModified c))
      (filter (fun c => Collection.at_path old c || Collection.at_path new c)
         l).
Proof.
  induction l as [|c l IH]; [reflexivity|].
  cbn [map filter]. destruct (Collection.at_path old c) eqn:Ho.
  - unfold Collection.at_path at 1. cbn [c_path orb].
    rewrite String.eqb_refl. cbn [map c_cp c_lastModified].
    now rewrite IH.
  - cbn [orb]. destruct (Collection.at_path new c); cbn [map];
      now rewrite IH.
Qed.

(** X19: after a [rename] that returned between two different paths, no
    checkpoint is listed for the old path, and the new path lists the
    records of both and no other: the ones it had itself (left by an
    earlier delete) are still listed, the ones of the old path are listed
    too, each with its [id] and [last_modified], and every record listed
    was listed for one of the two paths before. *)
Theorem rename_moves_checkpoints (old_path new_path : string) (now : time)
    (st st' : store) :
  strip new_path <> strip old_path ->
  rename old_path new_path now st = (Ok tt, st') ->
  list_checkpoints old_path st' = (Ok [], st') /\
  checkpoint_count new_path st'
  = checkpoint_count old_path st + checkpoint_count new_path st /\
  (forall i before after,
     list_checkpoints old_path st = (Ok before, st) ->
     list_checkpoints new_path st' = (Ok after, st') ->
     In i before -> In i after) /\
  (forall i before after,
     list_checkpoints new_path st = (Ok before, st) ->
     list_checkpoints new_path st' = (Ok after, st') ->
     In i before -> In i after) /\
  (forall i olds news after,
     list_checkpoints old_path st = (Ok olds, st) ->
     list_checkpoints new_path st = (Ok news, st) ->
     list_checkpoints new_path st' = (Ok after, st') ->
     In i after -> In i olds \/ In i news).
Proof.
  intros Hne Hr.
  destruct (rename_Ok_inv old_path new_path now st Hne Hr)
    as [st2 [Hcp ->]].
  destruct (retargeted_count (checkpoints st2) Hne) as [R1 R2].
  cbv zeta in R1, R2.
  assert (Hafter : list_checkpoints new_path
                     (retargeted (strip old_path) (strip new_path) st2)
                   = (Ok (map (fun c => Info.Make (c_cp c)
                                          (c_lastModified c))
                            (filter (fun c =>
                                       Collection.at_path (strip old_path) c
                                       || Collection.at_path
                                            (strip new_path) c)
                               (checkpoints st))),
                      retargeted (strip old_path) (strip new_path) st2)).
  { rewrite list_checkpoints_eq. unfold retargeted. cbn [checkpoints].
    now rewrite retargeted_infos, Hcp. }
  split; [|split; [|split; [|split]]].
  - rewrite list_checkpoints_eq. unfold retargeted. cbn [checkpoints].
    rewrite R1. reflexivity.
  - unfold checkpoint_count, retargeted. cbn [checkpoints].
    rewrite R2, Hcp. reflexivity.
  - intros i before after Hb Ha Hin.
    rewrite Hafter in Ha. rewrite list_checkpoints_eq in Hb.
    inversion Hb; subst before. inversion Ha; subst after.
    apply in_map_iff in Hin. destruct Hin as [c [Hi Hc]].
    apply filter_In in Hc. destruct Hc as [Hin Hp].
    apply in_map_iff. exists c. split; [exact Hi|].
    apply filter_In. split; [exact Hin|]. now rewrite Hp.
  - intros i before after Hb Ha Hin.
    rewrite Hafter in Ha. rewrite list_checkpoints_eq in Hb.
    inversion Hb; subst before. inversion Ha; subst after.
    apply in_map_iff in Hin. destruct Hin as [c [Hi Hc]].
    apply filter_In in Hc. destruct Hc as [Hin Hp].
    apply in_map_iff. exists c. split; [exact Hi|].
    apply filter_In. split; [exact Hin|]. rewrite Hp. apply orb_true_r.
  - intros i olds news after Ho Hn Ha Hin.
    rewrite Hafter in Ha. rewrite list_checkpoints_eq in Ho, Hn.
    inversion Ho; subst olds. inversion Hn; subst news.
    inversion Ha; subst after.
    apply in_map_iff in Hin. destruct Hin as [c [Hi Hc]].
    apply filter_In in Hc. destruct Hc as [Hin Hp].
    apply orb_prop in Hp. destruct Hp as [Hp|Hp]; [left|right];
      (apply in_map_iff; exists c; split; [exact Hi|];
       apply filter_In; split; [exact Hin | exact Hp]).
Qed.

(** X20: [rename] onto a free name raises 500 and writes nothing when the
    old path holds no blob version, and when the text of its latest
    version is not JSON. *)
Theorem rename_fails_without_writing (old_path new_path : string)
    (now : time) (st : store) :
  strip new_path <> strip old_path ->
  file_exists new_path st = (Ok false, st) ->
  (stored (strip old_path) st = false ->
   rename old_path new_path now st = (Raise (HTTPError 500 None), st)) /\
  (forall f g,
   GridFS.last_version (strip old_path) st = Some f ->
   GridFS.get (f_id f) st = (Ok g, st) ->
   json_loads (f_data g) = None ->
   rename old_path new_path now st = (Raise (HTTPError 500 None), st)).
Proof.
  intros Hne Hnew.
  assert (Hpre : forall k : M unit,
            (if String.eqb (strip new_path) (strip old_path) then ret tt
             else fe <- file_exists (strip new_path) ;;
                  if fe then raise (HTTPError 409 None) else k) st
            = k st).
  { intros k. destruct (String.eqb_spec (strip new_path) (strip old_path));
      [contradiction|].
    unfold bind. rewrite file_exists_eq, file_existsb_strip.
    rewrite file_exists_eq in Hnew.
    assert (Hb : file_existsb new_path st = false) by congruence.
    now rewrite Hb. }
  split.
  - intros Hs. apply last_version_None in Hs.
    unfold rename. rewrite Hpre.
    unfold bind at 1, except_Exception, bind at 1, GridFS.get_version.
    now rewrite Hs.
  - intros f g Hv Hg Hd. unfold rename. rewrite Hpre.
    unfold bind at 1, except_Exception, bind at 1, GridFS.get_version.
    rewrite Hv. unfold bind at 1. rewrite Hg, Hd. reflexivity.
Qed.

(** X21: [rename] of a notebook that holds exactly one version onto a free
    name off the root moves it: afterwards the old path does not exist,
    the new one does, and its latest version is the re-encoded document,
    under a fresh identifier and dated by the clock. *)
Theorem rename_moves_only_version (old_path new_path : string) (now : time)
    (st : store) (f : grid_file) (d : document) :
  strip new_path <> strip old_path ->
  strip old_path <> "" ->
  strip new_path <> "" ->
  stored (strip new_path) st = false ->
  filter (GridFS.named (strip old_path)) (files st) = [f] ->
  GridFS.get (f_id f) st = (Ok f, st) ->
  json_loads (f_data f) = Some d ->
  fresh_ids st = true ->
  exists st',
    rename old_path new_path now st = (Ok tt, st') /\
    exists_ old_path st' = (Ok false, st') /\
    exists_ new_path st' = (Ok true, st') /\
    GridFS.last_version (strip new_path) st'
    = Some (GridFile (next_oid st) (strip new_path) now
              (json_dumps false d)).
Proof.
  intros Hne Hold Hnew Hfree Hone Hg Hd Hfresh.
  assert (Hv : GridFS.last_version (strip old_path) st = Some f)
    by (unfold GridFS.last_version; now rewrite Hone).
  assert (Hf : In f (files st)) by (apply (last_version_In _ _ Hv)).
  assert (Hid : f_id f <> next_oid st).
  { unfold fresh_ids in Hfresh. rewrite forallb_forall in Hfresh.
    specialize (Hfresh f Hf). apply Nat.ltb_lt in Hfresh. lia. }
  eexists. split; [eapply rename_eq; eassumption|].
  apply String.eqb_neq in Hold. apply String.eqb_neq in Hnew.
  set (nf := GridFile (next_oid st) (strip new_path) now
               (json_dumps false d)).
  assert (Hfiles : filter (GridFS.named (strip new_path))
                     (filter (fun h => negb (f_id h =? f_id f)%nat)
                        (files st ++ [nf])) = [nf]).
  { rewrite filter_app. cbn [filter f_id nf].
    destruct (Nat.eqb_spec (next_oid st) (f_id f)); [congruence|].
    cbn [negb]. rewrite filter_app. cbn [filter].
    unfold GridFS.named at 2. cbn [f_filename]. rewrite String.eqb_refl.
    assert (E : filter (GridFS.named (strip new_path))
                  (filter (fun h => negb (f_id h =? f_id f)%nat) (files st))
                = []).
    { rewrite stored_filter in Hfree.
      destruct (filter (GridFS.named (strip new_path)) (files st))
        as [|x l] eqn:Fl; [|discriminate].
      clear - Fl. induction (files st) as [|x l IH]; [reflexivity|].
      cbn [filter] in *.
      destruct (GridFS.named (strip new_path) x) eqn:Nx; [discriminate|].
      destruct (negb (f_id x =? f_id f)%nat); cbn [filter];
        [rewrite Nx|]; now apply IH. }
    now rewrite E. }
  assert (Hstored : stored (strip new_path)
                      (retargeted (strip old_path) (strip new_path)
                         (without (f_id f)
                            (with_version st (strip new_path)
                               (json_dumps false d) now))) = true).
  { rewrite stored_filter. unfold retargeted, without, with_version.
    cbn [files]. fold nf. now rewrite Hfiles. }
  split; [|split].
  - rewrite exists_eq. unfold file_existsb.
    rewrite rename_old_path by exact Hne.
    assert (E : existsb (fun h => GridFS.named (strip old_path) h &&
                                  negb (f_id h =? f_id f)%nat) (files st)
                = false).
    { destruct (existsb _ (files st)) eqn:Ex; [|reflexivity].
      exfalso. apply existsb_exists in Ex. destruct Ex as [h [Hh Hc]].
      apply andb_prop in Hc. destruct Hc as [Hn Hi].
      assert (Hin : In h (filter (GridFS.named (strip old_path))
                            (files st)))
        by (apply filter_In; now split).
      rewrite Hone in Hin. destruct Hin as [<-|[]].
      rewrite Nat.eqb_refl in Hi. discriminate. }
    now rewrite E, Hold.
  - rewrite exists_eq. unfold file_existsb. now rewrite Hstored, Hnew.
  - unfold GridFS.last_version, retargeted, without, with_version.
    cbn [files]. fold nf. now rewrite Hfiles.
Qed.

End RenameEffects.

Lemma rename_moves_checkpoints_witness :
  list_checkpoints "a.ipynb"
    (snd (rename (H := ipython_host) "a.ipynb" "b.ipynb" 5000
            two_histories))
  = (Ok [],
     snd (rename (H := ipython_host) "a.ipynb" "b.ipynb" 5000
            two_histories)) /\
  checkpoint_count "b.ipynb"
    (snd (rename (H := ipython_host) "a.ipynb" "b.ipynb" 5000
            two_histories))
  = checkpoint_count "a.ipynb" two_histories +
    checkpoint_count "b.ipynb" two_histories /\
  list_checkpoints "b.ipynb"
    (snd (rename (H := ipython_host) "a.ipynb" "b.ipynb" 5000
            two_histories))
  = (Ok [Info.Make "0" 2000; Info.Make "0" 4000],
     snd (rename (H := ipython_host) "a.ipynb" "b.ipynb" 5000
            two_histories)).
Proof.
  destruct (@rename_moves_checkpoints ipython_host "a.ipynb" "b.ipynb" 5000
              two_histories
              (snd (rename (H := ipython_host) "a.ipynb" "b.ipynb" 5000
                      two_histories)))
    as [L [C _]]; [discriminate | reflexivity |].
  split; [exact L|]. split; [exact C | reflexivity].
Defined.

Lemma two_histories_eq :
  two_histories
  = Store [GridFile 2 "a.ipynb" 3000 empty_notebook;
           GridFile 3 "a.ipynb" 4000 empty_notebook]
          [Checkpoint 0 "b.ipynb" "0" 0 2000;
           Checkpoint 2 "a.ipynb" "0" 2 4000] 4.
Proof. reflexivity. Qed.

Lemma rename_fails_without_writing_witness :
  rename (H := picky_host) "c.ipynb" "b.ipynb" 3 saved_once
  = (Raise (HTTPError 500 None), saved_once) /\
  rename (H := picky_host) "a.ipynb" "b.ipynb" 3
         (Store [GridFile 0 "a.ipynb" 1 ""] [] 1)
  = (Raise (HTTPError 500 None), Store [GridFile 0 "a.ipynb" 1 ""] [] 1).
Proof.
  split.
  - apply (@rename_fails_without_writing picky_host "c.ipynb" "b.ipynb" 3
             saved_once);
      [discriminate | reflexivity | reflexivity].
  - apply (proj2 (@rename_fails_without_writing picky_host "a.ipynb"
                    "b.ipynb" 3 (Store [GridFile 0 "a.ipynb" 1 ""] [] 1)
                    ltac:(discriminate) eq_refl)
             (GridFile 0 "a.ipynb" 1 "") (GridFile 0 "a.ipynb" 1 ""));
      reflexivity.
Defined.

Lemma rename_moves_only_version_witness :
  exists st',
    rename (H := ipython_host) "a.ipynb" "b.ipynb" 3 saved_once
    = (Ok tt, st') /\
    exists_ "a.ipynb" st' = (Ok false, st') /\
    exists_ "b.ipynb" st' = (Ok true, st') /\
    GridFS.last_version "b.ipynb" st'
    = Some (GridFile 1 "b.ipynb" 3 empty_notebook).
Proof.
  apply (@rename_moves_only_version ipython_host "a.ipynb" "b.ipynb" 3
           saved_once (GridFile 0 "a.ipynb" 1 empty_notebook)
           empty_notebook);
    try discriminate; reflexivity.
Defined.

(** ** What every history keeps *)

Section HistoryInvariants.

Context {H : Host}.

Lemma grows_base (name : string) (st : store) : grows name st st.
Proof. now apply grows_same. Qed.

Lemma delete_grows (name p : string) (st st1 : store) :
  grows name st st1 -> grows name st (snd (delete p st1)).
Proof.
  intros G. unfold delete, bind. rewrite file_exists_eq.
  destruct (file_existsb p st1); cbn [negb snd]; [|exact G].
  unfold GridFS.get_version.
  destruct (GridFS.last_version (strip p) st1) as [f|]; [|exact G].
  apply grows_del with (i := f_id f) in G. exact G.
Qed.

Lemma save_grows (d : document) (p : string) (now : time) (st : store) :
  grows (strip p) st (snd (save (notebook_model d) p now st)).
Proof.
  unfold save, notebook_model.
  cbn [m_type m_content is_None andb negb String.eqb Ascii.eqb Bool.eqb].
  unfold bind at 1. rewrite file_exists_eq.
  unfold bind at 1.
  pose proof (checkpoint_step_files (file_existsb (strip p) st) (strip p)
                now st) as Hpre.
  cbv zeta in Hpre.
  match type of Hpre with
  | files (snd (?c st)) = _ /\ _ => destruct (c st) as [[u|e] st1]
  end; cbn [snd] in Hpre; destruct Hpre as [F N];
    assert (G1 : grows (strip p) st st1) by (now apply grows_same);
    [|exact G1].
  unfold bind at 1, except_reraise_HTTPError, _save_notebook, bind at 1.
  unfold GridFS.put, ret at 1.
  fold (with_version st1 (strip p)
          (json_dumps true (check_and_sign (from_dict d) (strip p))) now).
  apply grows_put
    with (data := json_dumps true (check_and_sign (from_dict d) (strip p)))
         (now := now) in G1.
  unfold bind.
  match goal with
  | |- context [get ?a ?b ?c ?d ?e ?s] =>
      pose proof (readonly_get a b c d e s) as R;
      destruct (get a b c d e s) as [[r|e'] s3]
  end; cbn [snd] in R; subst s3; [|exact G1].
  cbn [m_message].
  destruct (validate d) as [msg|]; [destruct (String.eqb msg "")|];
    exact G1.
Qed.

Lemma rename_grows (old_path new_path : string) (now : time) (st : store) :
  grows (strip new_path) st (snd (rename old_path new_path now st)).
Proof.
  unfold rename.
  destruct (String.eqb (strip new_path) (strip old_path));
    [apply grows_base|].
  unfold bind at 1. rewrite file_exists_eq.
  destruct (file_existsb (strip new_path) st); [apply grows_base|].
  unfold bind at 1, except_Exception, bind at 1, GridFS.get_version.
  destruct (GridFS.last_version (strip old_path) st) as [f|];
    [|apply grows_base].
  unfold bind at 1, GridFS.get.
  destruct (find _ (files st)) as [g|]; [|apply grows_base].
  destruct (json_loads (f_data g)) as [d|]; [|apply grows_base].
  unfold bind at 1, GridFS.put.
  fold (with_version st (strip new_path) (json_dumps false (from_dict d)) now).
  assert (G2 : grows (strip new_path) st
                 (snd (delete (strip old_path)
                         (with_version st (strip new_path)
                            (json_dumps false (from_dict d)) now))))
    by (apply delete_grows, grows_put, grows_base).
  destruct (delete (strip old_path) _) as [[u|e] st2]; cbn [snd] in *;
    [|exact G2].
  unfold Collection.retarget, modify. cbn [snd].
  eapply grows_files; [exact G2 | reflexivity | reflexivity].
Qed.

Lemma after_grows (r : request) (st : store) :
  exists name, strip name = name /\ grows name st (after r st).
Proof.
  destruct r as [d p now|o n now|p|p now]; cbn [after].
  - exists (strip p). split; [apply strip_idem | apply save_grows].
  - exists (strip n). split; [apply strip_idem | apply rename_grows].
  - exists "". split; [reflexivity | apply delete_grows, grows_base].
  - exists "". split; [reflexivity|].
    destruct (create_checkpoint_files p now st) as [F N].
    now apply grows_same.
Qed.

Lemma NoDup_map_filter {A B} (g : A -> B) (q : A -> bool) (l : list A) :
  NoDup (map g l) -> NoDup (map g (filter q l)).
Proof.
  induction l as [|x l IH]; cbn [map filter]; intros N; [exact N|].
  inversion N as [|y ys Hnot Hrest]; subst.
  destruct (q x); cbn [map]; [|now apply IH].
  constructor; [|now apply IH].
  intros Hin. apply Hnot. apply in_map_iff in Hin.
  destruct Hin as [z [Ez Hz]]. apply filter_In in Hz.
  apply in_map_iff. exists z. split; [exact Ez | apply Hz].
Qed.

Lemma ids_ok_grows (name : string) (st st' : store) :
  grows name st st' -> ids_ok st -> ids_ok st'.
Proof.
  intros G Hok.
  induction G as [st st' F N|st st1 data now G IH|st st1 i G IH
                 |st st1 st' G IH F N].
  - destruct Hok as [Hf Hn]. split.
    + now rewrite (@fresh_ids_same_files st st' F N).
    + now rewrite F.
  - destruct (IH Hok) as [Hf Hn]. split.
    + now apply fresh_ids_with_version.
    + unfold with_version. cbn [files]. rewrite map_app. cbn [map f_id].
      apply NoDup_app; [exact Hn| |].
      * constructor; [intros []|constructor].
      * intros x Hx [<-|[]].
        apply in_map_iff in Hx. destruct Hx as [g [Eg Hg]].
        unfold fresh_ids in Hf. rewrite forallb_forall in Hf.
        specialize (Hf g Hg). apply Nat.ltb_lt in Hf. lia.
  - destruct (IH Hok) as [Hf Hn]. split.
    + now apply fresh_ids_without.
    + unfold without. cbn [files]. now apply NoDup_map_filter.
  - destruct (IH Hok) as [Hf Hn]. split.
    + now rewrite (@fresh_ids_same_files st1 st' F N).
    + now rewrite F.
Qed.

Lemma names_stripped_grows (name : string) (st st' : store) :
  strip name = name ->
  grows name st st' -> names_stripped st -> names_stripped st'.
Proof.
  intros Hname G Hok.
  induction G as [st st' F N|st st1 data now G IH|st st1 i G IH
                 |st st1 st' G IH F N]; intros f Hin.
  - rewrite F in Hin. now apply Hok.
  - unfold with_version in Hin. cbn [files] in Hin.
    apply in_app_or in Hin. destruct Hin as [Hin|[<-|[]]];
      [now apply IH | exact Hname].
  - unfold without in Hin. cbn [files] in Hin.
    apply filter_In in Hin. now apply IH.
  - rewrite F in Hin. now apply IH.
Qed.

(** An identifier that is borne once leads back to its file. *)
Lemma fs_get_by_id (st : store) (f : grid_file) :
  NoDup (map f_id (files st)) ->
  In f (files st) ->
  GridFS.get (f_id f) st = (Ok f, st).
Proof.
  intros Hn Hin. unfold GridFS.get.
  assert (E : find (fun g => (f_id g =? f_id f)%nat) (files st) = Some f).
  { induction (files st) as [|x l IH]; [destruct Hin|].
    cbn [map] in Hn. inversion Hn as [|y ys Hnot Hrest]; subst.
    cbn [find]. destruct Hin as [->|Hin].
    - now rewrite Nat.eqb_refl.
    - destruct (Nat.eqb_spec (f_id x) (f_id f)) as [E|_].
      + exfalso. apply Hnot. rewrite E. now apply in_map.
      + now apply IH. }
  now rewrite E.
Qed.

Lemma run_invariants (rs : list request) (st : store) :
  ids_ok st -> names_stripped st ->
  ids_ok (run rs st) /\ names_stripped (run rs st).
Proof.
  revert st. induction rs as [|r rs IH]; intros st Hi Hn; [now split|].
  cbn [run]. destruct (after_grows r st) as [name [Hname G]].
  apply IH.
  - exact (ids_ok_grows G Hi).
  - exact (names_stripped_grows Hname G Hn).
Qed.

(** X22: whatever notebook saves, renames, deletes and checkpoints were
    called since the empty store, and whether they returned or raised,
    every stored file has a stripped name and an identifier that was
    allotted, that no other file bears and that [fs.get] leads back
    from. *)
Theorem every_history_keeps_the_bucket_sound (rs : list request)
    (f : grid_file) :
  In f (files (run rs empty_store)) ->
  strip (f_filename f) = f_filename f /\
  f_id f < next_oid (run rs empty_store) /\
  NoDup (map f_id (files (run rs empty_store))) /\
  GridFS.get (f_id f) (run rs empty_store) = (Ok f, run rs empty_store).
Proof.
  intros Hin.
  destruct (run_invariants rs (st := empty_store)) as [[Hf Hn] Hs].
  - split; [reflexivity | constructor].
  - intros g [].
  - split; [now apply Hs|]. split; [|split].
    + unfold fresh_ids in Hf. rewrite forallb_forall in Hf.
      now apply Nat.ltb_lt, Hf.
    + exact Hn.
    + now apply fs_get_by_id.
Qed.

End HistoryInvariants.

Lemma every_history_keeps_the_bucket_sound_witness :
  strip "b.ipynb" = "b.ipynb" /\
  1 < next_oid (run moved_and_cleaned empty_store) /\
  NoDup (map f_id (files (run moved_and_cleaned empty_store))) /\
  GridFS.get 1 (run moved_and_cleaned empty_store)
  = (Ok (GridFile 1 "b.ipynb" 2 empty_notebook),
     run moved_and_cleaned empty_store).
Proof.
  apply (@every_history_keeps_the_bucket_sound ipython_host
           moved_and_cleaned (GridFile 1 "b.ipynb" 2 empty_notebook)).
  left. reflexivity.
Defined.

Lemma get_never_saved_witness :
  exists_ "c.ipynb" (run saved_and_moved empty_store)
  = (Ok false, run saved_and_moved empty_store) /\
  get (H := ipython_host) "c.ipynb" true None None 3
    (run saved_and_moved empty_store)
  = (Raise (HTTPError 404 None), run saved_and_moved empty_store).
Proof.
  apply (@get_never_saved ipython_host "c.ipynb" true None None 3
           saved_and_moved);
    [discriminate | reflexivity].
Defined.

(** ** What every history keeps of the checkpoint collection *)

Section CollectionInvariants.

Context {H : Host}.

Lemma create_checkpoint_step (p : string) (now : time) (st : store) :
  collection_step (checkpoints st)
    (checkpoints (snd (create_checkpoint p now st))).
Proof.
  unfold create_checkpoint, bind, GridFS.get_version.
  destruct (GridFS.last_version (strip p) st) as [f|]; [|now left].
  unfold Collection.count, gets, Collection.upsert.
  destruct (find _ (checkpoints st)) as [c|].
  - destruct (c__id c =? f_id f)%nat; now left.
  - destruct (existsb _ (checkpoints st)) eqn:E; [now left|].
    right. left. exists (f_id f), (strip p),
      (str (List.length (filter (Collection.at_path (strip p))
                           (checkpoints st)))), now.
    split; [exact E | reflexivity].
Qed.

Lemma save_step (d : document) (p : string) (now : time) (st : store) :
  collection_step (checkpoints st)
    (checkpoints (snd (save (notebook_model d) p now st))).
Proof.
  unfold save, notebook_model.
  cbn [m_type m_content is_None andb negb String.eqb Ascii.eqb Bool.eqb].
  unfold bind at 1. rewrite file_exists_eq.
  unfold bind at 1.
  assert (Hpre : collection_step (checkpoints st)
                   (checkpoints
                      (snd ((if file_existsb (strip p) st
                             then cps <- list_checkpoints (strip p) ;;
                                  if is_nil cps
                                  then create_checkpoint (strip p) now ;;;
                                       ret tt
                                  else ret tt
                             else ret tt) st)))).
  { destruct (file_existsb (strip p) st); [|now left].
    unfold bind. rewrite list_checkpoints_eq.
    destruct (filter _ (checkpoints st)); cbn [is_nil map]; [|now left].
    pose proof (create_checkpoint_step (strip p) now st) as C.
    destruct (create_checkpoint (strip p) now st) as [[i|e] s1]; exact C. }
  match type of Hpre with
  | collection_step _ (checkpoints (snd (?c st))) =>
      destruct (c st) as [[u|e] st1]
  end; cbn [snd] in Hpre; [|exact Hpre].
  unfold bind at 1, except_reraise_HTTPError, _save_notebook, bind at 1.
  unfold GridFS.put, ret at 1.
  unfold bind.
  match goal with
  | |- context [get ?a ?b ?c ?d ?e ?s] =>
      pose proof (readonly_get a b c d e s) as R;
      destruct (get a b c d e s) as [[r|e'] s3]
  end; cbn [snd] in R; subst s3; [|exact Hpre].
  cbn [m_message].
  destruct (validate d) as [msg|]; [destruct (String.eqb msg "")|];
    exact Hpre.
Qed.

Lemma rename_step (old_path new_path : string) (now : time) (st : store) :
  collection_step (checkpoints st)
    (checkpoints (snd (rename old_path new_path now st))).
Proof.
  unfold rename.
  destruct (String.eqb (strip new_path) (strip old_path)); [now left|].
  unfold bind at 1. rewrite file_exists_eq.
  destruct (file_existsb (strip new_path) st); [now left|].
  unfold bind at 1, except_Exception, bind at 1, GridFS.get_version.
  destruct (GridFS.last_version (strip old_path) st) as [f|]; [|now left].
  unfold bind at 1, GridFS.get.
  destruct (find _ (files st)) as [g|]; [|now left].
  destruct (json_loads (f_data g)) as [d|]; [|now left].
  unfold bind at 1, GridFS.put.
  pose proof (delete_frame (strip old_path)
                (Store (files st ++
                        [GridFile (next_oid st) (strip new_path) now
                           (json_dumps false (from_dict d))])
                       (checkpoints st) (S (next_oid st)))) as D.
  cbn [checkpoints] in D.
  destruct (delete (strip old_path) _) as [[u|e] st2]; cbn [snd] in *;
    [|now left].
  unfold Collection.retarget, modify. cbn [snd checkpoints].
  right. right. exists (strip old_path), (strip new_path).
  now rewrite D.
Qed.

Lemma after_step (r : request) (st : store) :
  collection_step (checkpoints st) (checkpoints (after r st)).
Proof.
  destruct r as [d p now|o n now|p|p now]; cbn [after].
  - apply save_step.
  - apply rename_step.
  - left. apply delete_frame.
  - apply create_checkpoint_step.
Qed.

Lemma bson_date_idem (t : time) : bson_date (bson_date t) = bson_date t.
Proof.
  unfold bson_date. rewrite (Nat.mul_comm 1000 (t / 1000)).
  rewrite Nat.div_mul by discriminate. apply Nat.mul_comm.
Qed.

Lemma collection_ok_step (l l' : list checkpoint) :
  collection_step l l' -> collection_ok l -> collection_ok l'.
Proof.
  intros [->|[[i [path [cp [t [Hi ->]]]]]|[old [new ->]]]] [K [N D]];
    [now split| |].
  - split; [|split].
    + rewrite forallb_app, K. cbn. now rewrite Nat.eqb_refl.
    + rewrite map_app. cbn [map c__id].
      apply NoDup_app; [exact N| |].
      * constructor; [intros []|constructor].
      * intros x Hx [<-|[]].
        apply in_map_iff in Hx. destruct Hx as [c [Ec Hc]].
        assert (E : existsb (fun c => (c__id c =? i)%nat) l = true).
        { apply existsb_exists. exists c. split; [exact Hc|].
          now apply Nat.eqb_eq. }
        congruence.
    + intros c Hc. apply in_app_or in Hc. destruct Hc as [Hc|[<-|[]]];
        [now apply D | apply bson_date_idem].
  - split; [|split].
    + rewrite forallb_forall in *. intros c Hc.
      apply in_map_iff in Hc. destruct Hc as [c0 [<- Hc0]].
      specialize (K c0 Hc0).
      destruct (Collection.at_path old c0); exact K.
    + rewrite map_map.
      rewrite (map_ext _ c__id); [exact N|].
      intros c. now destruct (Collection.at_path old c).
    + intros c Hc. apply in_map_iff in Hc. destruct Hc as [c0 [<- Hc0]].
      specialize (D c0 Hc0).
      destruct (Collection.at_path old c0); exact D.
Qed.

Lemma run_collection_ok (rs : list request) (st : store) :
  collection_ok (checkpoints st) -> collection_ok (checkpoints (run rs st)).
Proof.
  revert st. induction rs as [|r rs IH]; intros st Hok; [exact Hok|].
  cbn [run]. apply IH. exact (collection_ok_step (after_step r st) Hok).
Qed.

(** X28: whatever notebook saves, renames, deletes and checkpoints were
    called since the empty store, and whether they returned or raised,
    every checkpoint document is keyed by the blob identifier it records,
    no two documents bear the same [_id], and every [lastModified] is a
    whole number of milliseconds. *)
Theorem every_history_keeps_the_collection_keyed (rs : list request) :
  keyed (run rs empty_store) = true /\
  NoDup (map c__id (checkpoints (run rs empty_store))) /\
  (forall c, In c (checkpoints (run rs empty_store)) ->
             c__id c = c_id c /\
             bson_date (c_lastModified c) = c_lastModified c).
Proof.
  destruct (@run_collection_ok rs empty_store) as [K [N D]].
  - split; [reflexivity|]. split; [constructor | intros c []].
  - split; [exact K|]. split; [exact N|].
    intros c Hc. split; [|now apply D].
    rewrite forallb_forall in K. now apply Nat.eqb_eq, K.
Qed.

End CollectionInvariants.

(** ** More on existence and checkpoints *)

(** X24: a path exists exactly when it is the root or some version is
    stored under its stripped name. *)
Theorem exists_characterised (p : string) (st : store) :
  exists b,
    exists_ p st = (Ok b, st) /\
    (b = true <->
     strip p = "" \/ In (strip p) (map f_filename (files st))).
Proof.
  rewrite exists_eq. eexists. split; [reflexivity|].
  unfold file_existsb, stored.
  destruct (String.eqb_spec (strip p) "") as [E|E]; cbn [negb andb orb].
  - split; [now left | reflexivity].
  - rewrite orb_false_r. split.
    + intros Hm. right. now apply mem_In.
    + intros [C|C]; [contradiction | now apply mem_In].
Qed.

(** X25: one checkpoint for each blob version: when a checkpoint document
    already bears the identifier of the latest version and the clock has
    moved on to a later millisecond since the documents were written (the
    collection keeps its dates to the millisecond), [create_checkpoint]
    raises and the store is as before. *)
Theorem create_checkpoint_once_per_version (p : string) (now : time)
    (st : store) (f : grid_file) :
  GridFS.last_version (strip p) st = Some f ->
  existsb (fun c => (c__id c =? f_id f)%nat) (checkpoints st) = true ->
  forallb (fun c => (c_lastModified c <? bson_date now)%nat) (checkpoints st)
  = true ->
  create_checkpoint p now st = (Raise DuplicateKeyError, st).
Proof.
  intros Hv Hdup Hclock.
  unfold create_checkpoint, bind, GridFS.get_version. rewrite Hv.
  unfold Collection.count, gets, Collection.upsert.
  assert (Hfind : forall cp l,
            forallb (fun c => (c_lastModified c <? bson_date now)%nat) l
            = true ->
            find (Collection.matches (strip p) cp (f_id f) (bson_date now)) l
            = None).
  { intros cp l. induction l as [|c l IH]; [reflexivity|].
    cbn [forallb find]. intros Hl. apply andb_prop in Hl.
    destruct Hl as [Hc Hl]. apply Nat.ltb_lt in Hc.
    unfold Collection.matches at 1.
    destruct (Nat.eqb_spec (c_lastModified c) (bson_date now)); [lia|].
    rewrite andb_false_r. now apply IH. }
  rewrite Hfind by exact Hclock. rewrite Hdup. reflexivity.
Qed.

Lemma create_checkpoint_once_per_version_witness :
  create_checkpoint "a.ipynb" 3456
    (Store (files saved_once) [Checkpoint 0 "a.ipynb" "0" 0 2000] 1)
  = (Raise DuplicateKeyError,
     Store (files saved_once) [Checkpoint 0 "a.ipynb" "0" 0 2000] 1).
Proof.
  apply (@create_checkpoint_once_per_version "a.ipynb" 3456
           (Store (files saved_once) [Checkpoint 0 "a.ipynb" "0" 0 2000] 1)
           (GridFile 0 "a.ipynb" 1 empty_notebook));
    reflexivity.
Defined.

